(** * tools/colorize.py: sprite recolouring by masked tinting

    A shallow embedding of [read_json], [load_image] and [colorize].

    Conventions of the embedding.
    - Band values are exact rationals ([Qc]); the rounding of the
      floating-point arithmetic done by libvips is not represented.
    - An image is its header (width, height, bands, interpretation,
      embedded profile) together with a function from coordinates and band
      index to the band value.
    - pyvips, [json] and [pathlib] are libraries used by the script, not part
      of it.  The arithmetic operators the script applies to images follow
      the libvips documentation of [vips_linear], [vips_multiply] and
      [vips_add]; codecs, colour conversion and path handling are left as
      the fields of an environment record [Env].
    - Python exceptions are values of [Exn]; effects (the file store and the
      standard output) are threaded through the monad [Py]. *)

From Stdlib Require Import ZArith QArith Qcanon String List Bool Lia.
From stdpp Require Import base numbers option list strings pretty gmap.

Local Open Scope Qc_scope.
Local Open Scope string_scope.
Local Open Scope list_scope.

(** ** Rational constants *)

Definition qz (z : Z) : Qc := Q2Qc (inject_Z z).

Definition q255 : Qc := qz 255.

(** ** Exceptions and results *)

Inductive Exn : Type :=
| ColorizingException (msg : string)
    (* the script's own exception class *)
| VipsError (message detail : string)
    (* pyvips.error.Error with its two attributes *)
| UnicodeDecodeError
| ParseError (msg : string)
    (* whatever json.load raises on a text it rejects *)
| OSError (msg : string)
    (* open() or mkdir() failing *)
| DynamicTypeError.
    (* TypeError, ValueError or AttributeError raised on an ill-shaped
       manifest value *)

Inductive Result (A : Type) : Type :=
| Ok (a : A)
| Raise (e : Exn).

Arguments Ok {A} a.
Arguments Raise {A} e.

Definition rbind {A B} (r : Result A) (k : A -> Result B) : Result B :=
  match r with
  | Ok a => k a
  | Raise e => Raise e
  end.

(** ** Images (pyvips.Image) *)

Module Vips.

Record Image : Type := mkImage {
  width : nat;
  height : nat;
  bands : nat;
  interpretation : string;
  icc_profile_data : option string;
  pixel : nat -> nat -> nat -> Qc   (* x, y, band *)
}.

(** Reading a band value the way the arithmetic operations do after they
    have made their operands alike: a position outside the image reads as
    zero (the smaller image is enlarged with zero pixels along the bottom
    and the right), and a one-band image supplies its only band for every
    band index. *)
Definition sample (im : Image) (x y k : nat) : Qc :=
  if (x <? width im)%nat && (y <? height im)%nat
  then pixel im x y (if (bands im =? 1)%nat then 0%nat else k)
  else 0.

(** Band counts of two operands: equal, or one of them is one. *)
Definition bandalike (a b : Image) : option nat :=
  if (bands a =? bands b)%nat then Some (bands a)
  else if (bands a =? 1)%nat then Some (bands b)
  else if (bands b =? 1)%nat then Some (bands a)
  else None.

Definition bands_msg : string :=
  "images must have the same number of bands, or one must be single-band".

(** A binary arithmetic operation on two images.  The header of the result
    is that of the first operand, with the common size and band count. *)
Definition binary (op : Qc -> Qc -> Qc) (a b : Image) : Result Image :=
  match bandalike a b with
  | None => Raise (VipsError "multiply" bands_msg)
  | Some n =>
      Ok {| width := Nat.max (width a) (width b);
            height := Nat.max (height a) (height b);
            bands := n;
            interpretation := interpretation a;
            icc_profile_data := icc_profile_data a;
            pixel := fun x y k => op (sample a x y k) (sample b x y k) |}
  end.

(** [a * b] and [a + b] on two images. *)
Definition multiply : Image -> Image -> Result Image := binary Qcmult.
Definition add : Image -> Image -> Result Image := binary Qcplus.

(** [im.linear(a, b)] with scalar [a] and [b]: every band value [v] becomes
    [a * v + b]. *)
Definition linear1 (im : Image) (a b : Qc) : Image :=
  {| width := width im;
     height := height im;
     bands := bands im;
     interpretation := interpretation im;
     icc_profile_data := icc_profile_data im;
     pixel := fun x y k => a * pixel im x y k + b |}.

Definition vector_msg : string := "vector must have 1 or N elements".

(** [im.linear(a, 0)] with a list [a], which is what [im * a] is for a
    Python list: a one-element list is used for every band, a list as long
    as the band count gives each band its own factor, and a one-band image
    is expanded to one band per element.  An empty list is rejected. *)
Definition linear_vec (im : Image) (a : list Qc) : Result Image :=
  let n := length a in
  if (n =? 0)%nat then Raise (VipsError "linear" vector_msg)
  else if (n =? 1)%nat || (bands im =? 1)%nat || (n =? bands im)%nat then
    Ok {| width := width im;
          height := height im;
          bands := if (n =? 1)%nat then bands im else n;
          interpretation := interpretation im;
          icc_profile_data := icc_profile_data im;
          pixel := fun x y k =>
            nth (if (n =? 1)%nat then 0%nat else k) a 0
            * pixel im x y (if (bands im =? 1)%nat then 0%nat else k) |}
  else Raise (VipsError "linear" vector_msg).

(** [im / c] for a number [c]: pyvips multiplies by the reciprocal. *)
Definition div_const (im : Image) (c : Qc) : Image := linear1 im (1 / c) 0.

(** [c - im] for a number [c]: pyvips computes [im.linear(-1, c)]. *)
Definition rsub_const (c : Qc) (im : Image) : Image := linear1 im (- 1) c.

(** [im.hasalpha()]: two bands, four bands unless tagged cmyk, or more than
    four.  (Later versions of libvips decide by interpretation, more than
    three bands for srgb; the two rules agree on srgb images of three bands
    or more.) *)
Definition hasalpha (im : Image) : bool :=
  (bands im =? 2)%nat
  || ((bands im =? 4)%nat && negb (String.eqb (interpretation im) "cmyk"))
  || (4 <? bands im)%nat.

Definition max_alpha (im : Image) : Qc :=
  if String.eqb (interpretation im) "grey16"
     || String.eqb (interpretation im) "rgb16"
  then qz 65535 else q255.

(** [im.addalpha()]: one more band, constant at the maximum alpha of the
    image's interpretation. *)
Definition addalpha (im : Image) : Image :=
  {| width := width im;
     height := height im;
     bands := S (bands im);
     interpretation := interpretation im;
     icc_profile_data := icc_profile_data im;
     pixel := fun x y k =>
       if (k =? bands im)%nat then max_alpha im else pixel im x y k |}.

End Vips.

Import Vips.

(** ** Manifest values (what json.load returns) *)

Set Warnings "-register-all".

Inductive JSON : Type :=
| JNull
| JBool (b : bool)
| JNum (q : Qc)
| JStr (s : string)
| JList (l : list JSON)
| JDict (kvs : list (string * JSON)).

(** *** The dynamic operations the script applies to manifest values

    An operation applied to a value of the wrong shape raises; which of
    TypeError, ValueError and AttributeError it is, is not distinguished. *)

Fixpoint assoc_get (kvs : list (string * JSON)) (k : string) : JSON :=
  match kvs with
  | [] => JNull
  | (k', v) :: rest => if String.eqb k' k then v else assoc_get rest k
  end.

(** [entry.get(k)]: [None] for an absent key. *)
Definition py_get (entry : JSON) (k : string) : Result JSON :=
  match entry with
  | JDict kvs => Ok (assoc_get kvs k)
  | _ => Raise DynamicTypeError
  end.

(** The characters of a string, each a string of length one.  A string is
    its sequence of bytes here. *)
Fixpoint chars (s : string) : list JSON :=
  match s with
  | EmptyString => []
  | String c rest => JStr (String c EmptyString) :: chars rest
  end.

(** The elements a [for] loop, [map] or an unpacking assignment draws from
    a value: the items of a list, the characters of a string, the keys of a
    dict. *)
Definition py_iter (v : JSON) : Result (list JSON) :=
  match v with
  | JList l => Ok l
  | JStr s => Ok (chars s)
  | JDict kvs => Ok (map (fun kv => JStr (fst kv)) kvs)
  | _ => Raise DynamicTypeError
  end.

(** [mask, col = item]. *)
Definition py_unpack2 (item : JSON) : Result (JSON * JSON) :=
  rbind (py_iter item) (fun l =>
  match l with
  | [a; b] => Ok (a, b)
  | _ => Raise DynamicTypeError
  end).

(** [len(v)]. *)
Definition py_len (v : JSON) : Result nat :=
  match v with
  | JList l => Ok (length l)
  | JStr s => Ok (String.length s)
  | JDict kvs => Ok (length kvs)
  | _ => Raise DynamicTypeError
  end.

(** [v + [255]]. *)
Definition py_append_255 (v : JSON) : Result JSON :=
  match v with
  | JList l => Ok (JList (l ++ [JNum q255]))
  | _ => Raise DynamicTypeError
  end.

(** [c / 255.0]. *)
Definition py_div_255 (c : JSON) : Result Qc :=
  match c with
  | JNum q => Ok (q / q255)
  | JBool b => Ok ((if b then 1 else 0) / q255)
  | _ => Raise DynamicTypeError
  end.

(** [v + ".png"]. *)
Definition py_add_png (v : JSON) : Result string :=
  match v with
  | JStr s => Ok (s +:+ ".png")
  | _ => Raise DynamicTypeError
  end.

Fixpoint map_result {A B} (f : A -> Result B) (l : list A) : Result (list B) :=
  match l with
  | [] => Ok []
  | a :: rest =>
      rbind (f a) (fun b =>
      rbind (map_result f rest) (fun bs => Ok (b :: bs)))
  end.

(** ** The body of the layer loop (colorize, lines 99 to 103) *)

(** [if len(col) == 3: col = col + [255]]. *)
Definition extend_col (col : JSON) : Result JSON :=
  rbind (py_len col) (fun n =>
  if (n =? 3)%nat then py_append_255 col else Ok col).

(** [col = list(map(lambda c: c / 255.0, col))], after the extension. *)
Definition normalize_col (col : JSON) : Result (list Qc) :=
  rbind (extend_col col) (fun col' =>
  rbind (py_iter col') (fun cs =>
  map_result py_div_255 cs)).

(** [load_image(...) / 255.0] on the loaded mask. *)
Definition mask_weight (mask : Image) : Image := div_const mask q255.

(** [image = (image * (1.0 - mask)) + image * mask * col], with [mask] the
    weight image and [col] the normalised colour. *)
Definition blend (image w : Image) (col : list Qc) : Result Image :=
  rbind (multiply image (rsub_const 1 w)) (fun keep =>
  rbind (multiply image w) (fun under =>
  rbind (linear_vec under col) (fun tinted =>
  add keep tinted))).

(** [image] has a pixel at [(x, y)]. *)
Definition inside (im : Image) (x y : nat) : bool :=
  (x <? width im)%nat && (y <? height im)%nat.

(** The band value [blend] yields at a position of its result: the blend
    where both operands have a pixel, zero where one of them was enlarged. *)
Definition blend_value (image w : Image) (col : list Qc) (x y k : nat) : Qc :=
  if inside image x y && inside w x y
  then pixel image x y k * (1 - pixel w x y k)
       + pixel image x y k * pixel w x y k * nth k col 0
  else 0.

(** ** The world of the script and its monad *)

Record World : Type := mkWorld {
  files : gmap string string;   (* path to file content *)
  dirs : gset string;           (* directories made by the script *)
  stdout : list string          (* one entry per call of print *)
}.

Definition Py (A : Type) : Type := World -> World * Result A.

Definition ret {A} (a : A) : Py A := fun w => (w, Ok a).

Definition raise {A} (e : Exn) : Py A := fun w => (w, Raise e).

Definition bind {A B} (m : Py A) (k : A -> Py B) : Py B :=
  fun w =>
    match m w with
    | (w', Ok a) => k a w'
    | (w', Raise e) => (w', Raise e)
    end.

Definition lift {A} (r : Result A) : Py A := fun w => (w, r).

Notation "x <- m ;; k" := (bind m (fun x => k))
  (at level 100, m at next level, right associativity).

(** [print(a, b, ...)]: the arguments separated by one space. *)
Definition print (args : list string) : Py unit :=
  fun w =>
    ({| files := files w; dirs := dirs w;
        stdout := stdout w ++ [String.concat " " args] |}, Ok tt).

(** ** The libraries the script calls *)

Record Env : Type := mkEnv {
  (* pathlib *)
  path_parent : string -> string;            (* p.parents[0] *)
  path_join : string -> string -> string;    (* p.joinpath(s) *)
  (* json.load on the text of a file *)
  json_load : string -> Result JSON;
  (* libvips *)
  png_decode : string -> Result Image;       (* decoder, on a file content *)
  png_open_error_text : string -> string * string;
    (* message and detail of the error raised for a path it cannot open *)
  png_encode : Image -> string;              (* encoder, with PNGSAVE_ARGS *)
  colourspace : Image -> string -> Result Image;
  icc_transform : Image -> string -> Result Image
}.

Definition newline : string := String (Ascii.ascii_of_nat 10) EmptyString.

(** [str(e)] for a pyvips error: the message, then the detail. *)
Definition vips_error_str (message detail : string) : string :=
  message +:+ newline +:+ "  " +:+ detail.

(** ** read_json *)

(** [open(json_path, 'r', encoding="utf-8")]. *)
Definition open_read (path : string) : Py string :=
  fun w =>
    match files w !! path with
    | Some text => (w, Ok text)
    | None => (w, Raise (OSError ("No such file or directory: " +:+ path)))
    end.

(** [isinstance(entries, list)] and the wrapping of line 48. *)
Definition as_entries (entries : JSON) : list JSON :=
  match entries with
  | JList l => l
  | _ => [entries]
  end.

Definition read_json (env : Env) (json_path : string) : Py (list JSON) :=
  text <- open_read json_path ;;
  match json_load env text with
  | Raise e =>
      _ <- print ["error loading %s"; json_path] ;;
      raise e
  | Ok entries => ret (as_entries entries)
  end.

(** ** load_image *)

(** [Vips.Image.pngload(str(png_path))]. *)
Definition pngload (env : Env) (path : string) : Py Image :=
  fun w =>
    match files w !! path with
    | Some content => (w, png_decode env content)
    | None =>
        let '(message, detail) := png_open_error_text env path in
        (w, Raise (VipsError message detail))
    end.

Definition unicode_msg (png_path : string) : string :=
  "Cannot load " +:+ png_path +:+ " with UnicodeDecodeError, "
  +:+ "please report your setup at "
  +:+ "https://github.com/libvips/pyvips/issues/80".

(** Lines 59 to 68: the decoder's two caught exceptions become the
    script's own; any other propagates. *)
Definition load_decoded (env : Env) (png_path : string) : Py Image :=
  fun w =>
    match pngload env png_path w with
    | (w', Ok image) => (w', Ok image)
    | (w', Raise (VipsError message _)) =>
        (w', Raise (ColorizingException
                      ("Cannot load " +:+ png_path +:+ ": " +:+ message)))
    | (w', Raise UnicodeDecodeError) =>
        (w', Raise (ColorizingException (unicode_msg png_path)))
    | (w', Raise e) => (w', Raise e)
    end.

(** Lines 69 and 70. *)
Definition to_srgb (env : Env) (image : Image) : Result Image :=
  if String.eqb (interpretation image) "srgb" then Ok image
  else colourspace env image "srgb".

(** Lines 73 and 74. *)
Definition ensure_alpha (image : Image) : Image :=
  if hasalpha image then image else addalpha image.

(** Lines 72 to 82: the [try] block around the alpha and profile steps.
    [image] has been rebound to the image with alpha when the profile
    transform raises, so that is the image returned after the handler. *)
Definition load_finish (env : Env) (png_path : string) (image : Image)
  : Py Image :=
  let image1 := ensure_alpha image in
  match icc_profile_data image1 with
  | None => ret image1
  | Some _ =>
      match icc_transform env image1 "srgb" with
      | Ok image2 => ret image2
      | Raise (VipsError message detail) =>
          _ <- print ["%s: %s"; png_path; vips_error_str message detail] ;;
          ret image1
      | Raise e => raise e
      end
  end.

Definition load_image (env : Env) (png_path : string) : Py Image :=
  image <- load_decoded env png_path ;;
  image <- lift (to_srgb env image) ;;
  load_finish env png_path image.

(** ** colorize *)

(** [image.pngsave(path, **PNGSAVE_ARGS)]. *)
Definition pngsave (env : Env) (image : Image) (path : string) : Py unit :=
  fun w =>
    ({| files := <[path := png_encode env image]> (files w);
        dirs := dirs w; stdout := stdout w |}, Ok tt).

(** [output_dir.mkdir(exist_ok=True)]; a file of that name is an error. *)
Definition mkdir_exist_ok (path : string) : Py unit :=
  fun w =>
    match files w !! path with
    | Some _ => (w, Raise (OSError ("File exists: " +:+ path)))
    | None =>
        ({| files := files w; dirs := {[path]} ∪ dirs w;
            stdout := stdout w |}, Ok tt)
    end.

(** One iteration of the loop of line 98. *)
Definition layer (env : Env) (directory : string) (image : Image)
  (item : JSON) : Py Image :=
  pair <- lift (py_unpack2 item) ;;
  let '(mask, col) := pair in
  col <- lift (normalize_col col) ;;
  name <- lift (py_add_png mask) ;;
  mask <- load_image env (path_join env directory name) ;;
  lift (blend image (mask_weight mask) col).

(** The loop of line 98 over the items of [colors]. *)
Fixpoint layers (env : Env) (directory : string) (image : Image)
  (items : list JSON) : Py Image :=
  match items with
  | [] => ret image
  | item :: rest =>
      image' <- layer env directory image item ;;
      layers env directory image' rest
  end.

(** The body of the loop of line 91. *)
Definition colorize_entry (env : Env) (directory output_dir : string)
  (entry : JSON) : Py unit :=
  out_id <- lift (py_get entry "id") ;;
  source <- lift (py_get entry "file") ;;
  colors <- lift (py_get entry "colors") ;;
  name <- lift (py_add_png source) ;;
  image <- load_image env (path_join env directory name) ;;
  items <- lift (py_iter colors) ;;
  image <- layers env directory image items ;;
  out_name <- lift (py_add_png out_id) ;;
  pngsave env image (path_join env output_dir out_name).

Fixpoint colorize_entries (env : Env) (directory output_dir : string)
  (entries : list JSON) : Py unit :=
  match entries with
  | [] => ret tt
  | entry :: rest =>
      _ <- colorize_entry env directory output_dir entry ;;
      colorize_entries env directory output_dir rest
  end.

Definition colorize (env : Env) (json_path output_dir : string) : Py unit :=
  let directory := path_parent env json_path in
  entries <- read_json env json_path ;;
  _ <- mkdir_exist_ok output_dir ;;
  colorize_entries env directory output_dir entries.

(** ** What the script relies on from libvips

    An image tagged srgb by the decoder or by [colourspace] has the three
    colour bands; [icc_transform] to sRGB tags its result srgb and keeps the
    band count. *)
Record LibraryContract (env : Env) : Prop := {
  decoded_bands : forall content im,
    png_decode env content = Ok im ->
    interpretation im = "srgb" -> (3 <= bands im)%nat;
  colourspace_tags : forall im out,
    colourspace env im "srgb" = Ok out ->
    interpretation out = "srgb" /\ (3 <= bands out)%nat;
  icc_keeps_shape : forall im out,
    icc_transform env im "srgb" = Ok out ->
    interpretation out = "srgb" /\ bands out = bands im
}.

(** ** Manifest entries of the intended shape *)

(** An object with [id], [file] and [colors], the latter a list of
    [[mask, colour]] pairs with a list of numbers as colour. *)
Definition manifest_entry (id file : string)
  (colors : list (string * list Qc)) : JSON :=
  JDict [("id", JStr id); ("file", JStr file);
         ("colors",
          JList (map (fun mc => JList [JStr (fst mc); JList (map JNum (snd mc))])
                   colors))].

(** ** Example data *)

Module Demo.

(** An image of one colour. *)
Definition solid (w h : nat) (px : list Qc) : Image :=
  {| width := w; height := h; bands := length px;
     interpretation := "srgb"; icc_profile_data := None;
     pixel := fun _ _ k => nth k px 0 |}.

Definition with_profile (p : string) (im : Image) : Image :=
  {| width := width im; height := height im; bands := bands im;
     interpretation := interpretation im; icc_profile_data := Some p;
     pixel := pixel im |}.

Definition retag (space : string) (im : Image) : Image :=
  {| width := width im; height := height im; bands := bands im;
     interpretation := space; icc_profile_data := icc_profile_data im;
     pixel := pixel im |}.

(** Grey to RGB: the first band three times, then the others. *)
Definition grey_to_rgb (im : Image) : Image :=
  {| width := width im; height := height im; bands := 2 + bands im;
     interpretation := interpretation im;
     icc_profile_data := icc_profile_data im;
     pixel := fun x y k => pixel im x y (k - 2) |}.

Definition px (l : list Z) : list Qc := map qz l.

(** A 1x1 base with the pixel (200, 100, 50, 255). *)
Definition base1 : Image := solid 1 1 (px [200; 100; 50; 255]%Z).

(** A 1x1 base with the pixel (0.784, 0.392, 0.196, 1.0). *)
Definition base_unit : Image :=
  solid 1 1 [Q2Qc (784 # 1000); Q2Qc (392 # 1000); Q2Qc (196 # 1000); 1].

(** Masks: full weight in every band, and red band only. *)
Definition mask_full : Image := solid 1 1 (px [255; 255; 255; 255]%Z).
Definition mask_red : Image := solid 1 1 (px [255; 0; 0; 255]%Z).

Definition base64 : Image := solid 64 64 (px [200; 100; 50; 255]%Z).
Definition mask32 : Image := solid 32 32 (px [255; 255; 255; 255]%Z).

(** An opaque RGB image carrying a profile the transform rejects. *)
Definition tagged : Image :=
  with_profile "broken" (solid 2 2 (px [10; 20; 30]%Z)).

Definition nums (l : list Z) : JSON := JList (map JNum (px l)).

Definition job (id file : string) (colors : list (string * list Z)) : JSON :=
  manifest_entry id file (map (fun mc => (fst mc, px (snd mc))) colors).

Definition job_mismatch : JSON := job "out" "base64" [("mask32", [255; 0; 0]%Z)].

Fixpoint dirname_go (s acc : string) : option string :=
  match s with
  | EmptyString => None
  | String c rest =>
      match dirname_go rest (acc +:+ String c EmptyString) with
      | Some d => Some d
      | None => if Ascii.eqb c (Ascii.ascii_of_nat 47) then Some acc else None
      end
  end.

Definition dirname (s : string) : string :=
  match dirname_go s "" with Some d => d | None => "." end.

Definition env : Env :=
  {| path_parent := dirname;
     path_join := fun d s => d +:+ "/" +:+ s;
     json_load := fun text =>
       if String.eqb text "single" then Ok job_mismatch
       else if String.eqb text "array" then Ok (JList [job_mismatch])
       else Raise (ParseError "Expecting value");
     png_decode := fun content =>
       if String.eqb content "base64" then Ok base64
       else if String.eqb content "mask32" then Ok mask32
       else if String.eqb content "tagged" then Ok tagged
       else if String.eqb content "mojibake" then Raise UnicodeDecodeError
       else Raise (VipsError "unable to call pngload" "not a PNG file");
     png_open_error_text := fun path =>
       ("unable to call pngload", "file does not exist: " +:+ path);
     png_encode := fun im =>
       "PNG " +:+ pretty (width im) +:+ "x" +:+ pretty (height im);
     colourspace := fun im space =>
       if (bands im =? 0)%nat
       then Raise (VipsError "unable to call colourspace" "no bands")
       else Ok (retag space
                  (if (bands im <? 3)%nat then grey_to_rgb im else im));
     icc_transform := fun im space =>
       if bool_decide (icc_profile_data im = Some "broken")
       then Raise (VipsError "unable to call icc_transform" "no input profile")
       else Ok (retag "srgb" (with_profile space im)) |}.

Definition world : World :=
  {| files := {[ "sprites/test.col" := "single";
                 "sprites/list.col" := "array";
                 "sprites/base64.png" := "base64";
                 "sprites/mask32.png" := "mask32";
                 "sprites/tagged.png" := "tagged";
                 "sprites/text.png" := "hello";
                 "sprites/odd.png" := "mojibake" ]};
     dirs := ∅;
     stdout := [] |}.

End Demo.

(** ** main *)

(** Lines 121 to 124, from the parsed [--dir] argument on ([None] when the
    flag is absent, for which the parser supplies ["."]).  [resolve] is
    [Path.resolve]. *)
Definition main (env : Env) (resolve : string -> string)
  (dir : option string) : Py unit :=
  let path := resolve (default "." dir) in
  colorize env (path_join env path "test.col") (path_join env path "autocolor").

(** [sys.exit(main())]: [main] returns [None], which is status 0; an
    exception that leaves [main] ends the process with status 1. *)
Definition exit_status (r : Result unit) : nat :=
  match r with
  | Ok _ => 0%nat
  | Raise _ => 1%nat
  end.

(** ** Effects that leave the files alone *)

(** From [w] to [w'] nothing happened but calls of print. *)
Definition only_prints (w w' : World) : Prop :=
  files w' = files w /\ dirs w' = dirs w
  /\ exists lines, stdout w' = stdout w ++ lines.

(** ** Colour components *)

(** The values [c / 255.0] accepts: numbers, and booleans as 1 and 0. *)
Definition is_number (v : JSON) : bool :=
  match v with
  | JNum _ | JBool _ => true
  | _ => false
  end.

(** ** More example data *)

Module Cases.

(** A store with a manifest the parser rejects and a file in the place of
    the output directory. *)
Definition broken : World :=
  {| files := <["work/test.col" := "{"]> (files Demo.world);
     dirs := ∅; stdout := [] |}.

Definition blocked : World :=
  {| files := <["sprites/autocolor" := "x"]> (files Demo.world);
     dirs := ∅; stdout := [] |}.

Definition no_mask : JSON :=
  manifest_entry "out" "base64" [("absent", [qz 255; qz 0; qz 0])].
Definition no_id : JSON :=
  JDict [("file", JStr "base64"); ("colors", JList [])].


(** An environment whose colour-space conversion fails. *)
Definition env_no_route : Env :=
  {| path_parent := path_parent Demo.env;
     path_join := path_join Demo.env;
     json_load := json_load Demo.env;
     png_decode := fun content =>
       if String.eqb content "grey" then Ok (Demo.retag "b-w" Demo.base64)
       else png_decode Demo.env content;
     png_open_error_text := png_open_error_text Demo.env;
     png_encode := png_encode Demo.env;
     colourspace := fun _ _ =>
       Raise (VipsError "unable to call colourspace" "no known route");
     icc_transform := icc_transform Demo.env |}.

Definition grey_world : World :=
  {| files := {[ "sprites/grey.png" := "grey" ]}; dirs := ∅; stdout := [] |}.

(** A three-band image without profile. *)
Definition rgb : Image := Demo.solid 2 2 (Demo.px [10; 20; 30]%Z).

End Cases.

(** * Properties *)

(** ** Arithmetic on the constants *)

Lemma q255_nonzero : q255 <> 0.
Proof. intros H. apply (f_equal this) in H. discriminate H. Qed.

Lemma q255_pos : 0 < q255.
Proof. reflexivity. Qed.

Lemma q255_unit : q255 / q255 = 1.
Proof. apply Qc_is_canon. reflexivity. Qed.

Lemma weight_of_255 (m : Qc) : m = q255 -> 1 / q255 * m + 0 = 1.
Proof. intros ->. apply Qc_is_canon. reflexivity. Qed.

Lemma weight_as_quotient (m : Qc) : 1 / q255 * m + 0 = m / q255.
Proof. field. exact q255_nonzero. Qed.

Lemma unit_interval (c : Qc) : 0 <= c <= q255 -> 0 <= c / q255 <= 1.
Proof.
  intros [Hlo Hhi]. unfold Qcdiv.
  assert (Hinv : 0 < / q255) by (apply Qcinv_pos, q255_pos).
  split.
  - rewrite <- (Qcmult_0_l (/ q255)).
    apply Qcmult_le_compat_r; [exact Hlo | apply Qclt_le_weak, Hinv].
  - rewrite <- (Qcmult_inv_r q255) by exact q255_nonzero.
    apply Qcmult_le_compat_r; [exact Hhi | apply Qclt_le_weak, Hinv].
Qed.

Lemma below_unit (c : Qc) : c < q255 -> c / q255 < 1.
Proof.
  intros H. unfold Qcdiv.
  rewrite <- (Qcmult_inv_r q255) by exact q255_nonzero.
  apply Qcmult_lt_compat_r; [apply Qcinv_pos, q255_pos | exact H].
Qed.

(** ** The image operations *)

Section BlendFacts.

Local Open Scope nat_scope.

Lemma band_index (n k : nat) : k < n -> (if n =? 1 then 0 else k) = k.
Proof. destruct (Nat.eqb_spec n 1); lia. Qed.

Lemma bandalike_same a b : bands b = bands a -> bandalike a b = Some (bands a).
Proof. unfold bandalike. intros ->. now rewrite Nat.eqb_refl. Qed.

Lemma inside_true im x y : x < width im -> y < height im -> inside im x y = true.
Proof.
  intros Hx Hy. unfold inside.
  apply andb_true_iff. split; apply Nat.ltb_lt; assumption.
Qed.

(** With operands of one band count and a colour of that length, the four
    library calls of [blend] succeed whatever the sizes; the result has the
    larger width and height and the band values of [blend_value]. *)
Lemma blend_defined image w col :
  bands w = bands image -> length col = bands image -> 0 < bands image ->
  exists out,
    blend image w col = Ok out
    /\ width out = Nat.max (width image) (width w)
    /\ height out = Nat.max (height image) (height w)
    /\ bands out = bands image
    /\ forall x y k, x < width out -> y < height out -> k < bands image ->
         pixel out x y k = blend_value image w col x y k.
Proof.
  intros Hw Hc Hpos.
  unfold blend, multiply, add, binary.
  rewrite (bandalike_same image (rsub_const 1 w)) by exact Hw.
  rewrite (bandalike_same image w) by exact Hw.
  cbn [rbind]. unfold linear_vec. cbn [bands width height].
  rewrite Hc.
  destruct (Nat.eqb_spec (bands image) 0) as [E|_]; [lia|].
  rewrite Nat.eqb_refl, orb_true_r. cbn [rbind].
  rewrite bandalike_same.
  2:{ cbn [bands]. destruct (bands image =? 1); reflexivity. }
  eexists. split; [reflexivity|]. cbn [width height bands pixel].
  split; [cbn [rsub_const linear1 width height]; lia|].
  split; [cbn [rsub_const linear1 width height]; lia|].
  split; [reflexivity|].
  intros x y k Hx Hy Hk.
  unfold blend_value, sample, inside, rsub_const, linear1.
  cbn [width height bands pixel]. rewrite Hw.
  assert (Hidx : (if bands image =? 1 then 0 else k) = k) by now apply band_index.
  destruct (bands image =? 1) eqn:E1; cbn iota; rewrite ?E1; cbn iota;
    rewrite <- ?Hidx;
    repeat match goal with
           | |- context [?a <? ?b] => destruct (Nat.ltb_spec a b)
           end; cbn [andb]; try lia; ring.
Qed.

Lemma blend_value_inside image w col x y k :
  inside image x y = true -> inside w x y = true ->
  blend_value image w col x y k
  = (pixel image x y k * (1 - pixel w x y k)
     + pixel image x y k * pixel w x y k * nth k col 0)%Qc.
Proof. unfold blend_value. now intros -> ->. Qed.

Lemma mask_weight_pixel mask x y k :
  pixel (mask_weight mask) x y k = (pixel mask x y k / q255)%Qc.
Proof. cbn. apply weight_as_quotient. Qed.

End BlendFacts.

(** ** The layer step *)

(** C1.  For every base image, weight image and normalised colour of the
    same shape, one layer step succeeds, keeps the shape, and gives at each
    pixel and band [I' = I * (1 - w) + I * w * c]: a multiplicative tint.
    Where the weight is 1 the result is [I * c]; where [I] is 0 the result
    is [I], whatever the weight. *)
Theorem blend_is_multiplicative_tint (image w : Image) (col : list Qc) :
  width w = width image -> height w = height image ->
  bands w = bands image -> length col = bands image ->
  (0 < bands image)%nat ->
  exists out,
    blend image w col = Ok out
    /\ width out = width image
    /\ height out = height image
    /\ bands out = bands image
    /\ forall x y k,
         (x < width image)%nat -> (y < height image)%nat ->
         (k < bands image)%nat ->
         pixel out x y k
         = pixel image x y k * (1 - pixel w x y k)
           + pixel image x y k * pixel w x y k * nth k col 0
         /\ (pixel w x y k = 1 ->
             pixel out x y k = pixel image x y k * nth k col 0)
         /\ (pixel image x y k = 0 -> pixel out x y k = pixel image x y k).
Proof.
  intros Hwd Hht Hb Hc Hpos.
  destruct (blend_defined image w col Hb Hc Hpos)
    as (out & Hout & Hw & Hh & Hbo & Hpx).
  exists out. rewrite Hwd, Nat.max_id in Hw. rewrite Hht, Nat.max_id in Hh.
  repeat (split; [assumption|]).
  intros x y k Hx Hy Hk.
  assert (E : pixel out x y k
              = pixel image x y k * (1 - pixel w x y k)
                + pixel image x y k * pixel w x y k * nth k col 0).
  { rewrite Hpx by lia.
    apply blend_value_inside; apply inside_true; lia. }
  split; [exact E|]. split.
  - intros W1. rewrite E, W1. ring.
  - intros I0. rewrite E, I0. ring.
Qed.

(** The literal case of C1: the pixel (0.784, 0.392, 0.196, 1.0) under a
    mask of weight 1 and the colour (1, 0, 0, 1) becomes (0.784, 0, 0, 1.0). *)
Lemma blend_is_multiplicative_tint_witness :
  exists out,
    blend Demo.base_unit (mask_weight Demo.mask_full) [1; 0; 0; 1] = Ok out
    /\ pixel out 0 0 0 = Q2Qc (784 # 1000)
    /\ pixel out 0 0 1 = 0
    /\ pixel out 0 0 2 = 0
    /\ pixel out 0 0 3 = 1.
Proof.
  destruct (blend_is_multiplicative_tint Demo.base_unit
              (mask_weight Demo.mask_full) [1; 0; 0; 1]
              eq_refl eq_refl eq_refl eq_refl (Nat.lt_0_succ 3))
    as (out & Hout & _ & _ & _ & Hpx).
  exists out. split; [exact Hout|].
  assert (W : forall k, (k < 4)%nat ->
            pixel (mask_weight Demo.mask_full) 0 0 k = 1).
  { intros k Hk. do 4 (destruct k as [|k]; [apply Qc_is_canon; reflexivity|]).
    lia. }
  repeat split.
  - destruct (Hpx 0%nat 0%nat 0%nat) as (_ & H & _); [cbn; lia ..|].
    rewrite H by (apply W; lia). apply Qc_is_canon. reflexivity.
  - destruct (Hpx 0%nat 0%nat 1%nat) as (_ & H & _); [cbn; lia ..|].
    rewrite H by (apply W; lia). apply Qc_is_canon. reflexivity.
  - destruct (Hpx 0%nat 0%nat 2%nat) as (_ & H & _); [cbn; lia ..|].
    rewrite H by (apply W; lia). apply Qc_is_canon. reflexivity.
  - destruct (Hpx 0%nat 0%nat 3%nat) as (_ & H & _); [cbn; lia ..|].
    rewrite H by (apply W; lia). apply Qc_is_canon. reflexivity.
Defined.

(** ** The weight of a mask *)

(** C2, as stated, fails.  With the 1x1 base (200, 100, 50, 255), a mask
    whose pixel is (255, 0, 0, 255) and the colour (0, 0, 0, 255), the layer
    yields (0, 100, 50, 255): the red band was blended at weight 1 and the
    green band at weight 0, so no single weight for the pixel accounts for
    all four bands. *)
Lemma scalar_weight_counterexample :
  exists col out,
    normalize_col (Demo.nums [0; 0; 0; 255]%Z) = Ok col
    /\ blend Demo.base1 (mask_weight Demo.mask_red) col = Ok out
    /\ pixel out 0 0 0 = 0
    /\ pixel out 0 0 1 = qz 100
    /\ ~ exists w : Qc, forall k, (k < 4)%nat ->
           pixel out 0 0 k
           = pixel Demo.base1 0 0 k * (1 - w)
             + pixel Demo.base1 0 0 k * w * nth k col 0.
Proof.
  destruct (blend_defined Demo.base1 (mask_weight Demo.mask_red)
              [0 / q255; 0 / q255; 0 / q255; q255 / q255]
              eq_refl eq_refl (Nat.lt_0_succ 3))
    as (out & Hout & Wd & Ht & _ & Hpx).
  exists [0 / q255; 0 / q255; 0 / q255; q255 / q255], out.
  assert (P0 : pixel out 0 0 0 = 0).
  { rewrite Hpx by (rewrite ?Wd, ?Ht; cbn; lia).
    apply Qc_is_canon. reflexivity. }
  assert (P1 : pixel out 0 0 1 = qz 100).
  { rewrite Hpx by (rewrite ?Wd, ?Ht; cbn; lia).
    apply Qc_is_canon. reflexivity. }
  split; [apply (f_equal Ok); repeat f_equal; apply Qc_is_canon; reflexivity|].
  split; [exact Hout|]. split; [exact P0|]. split; [exact P1|].
  intros [w Hw].
  pose proof (Hw 0%nat ltac:(lia)) as H0.
  pose proof (Hw 1%nat ltac:(lia)) as H1.
  rewrite P0 in H0. rewrite P1 in H1. cbn [Demo.base1 Demo.solid pixel nth Demo.px map] in H0, H1.
  assert (Z0 : 0 / q255 = 0) by (apply Qc_is_canon; reflexivity).
  rewrite Z0 in H0, H1.
  assert (E : qz 200 = (1 + 1) * qz 100) by (apply Qc_is_canon; reflexivity).
  assert (A : qz 200 = 0).
  { transitivity ((1 + 1) * (qz 100 * (1 - w) + qz 100 * w * 0));
      [rewrite <- H1; exact E|].
    transitivity (qz 200 * (1 - w) + qz 200 * w * 0);
      [rewrite E; ring | symmetry; exact H0]. }
  apply (f_equal this) in A. discriminate A.
Qed.

(** C2, amended.  The mask is divided by 255 band by band, and band [k] of
    the image is blended with the weight in band [k] of the mask: for a
    base and a mask of the same shape, [I'_k = I_k * (1 - M_k / 255) +
    I_k * (M_k / 255) * c_k]. *)
Theorem mask_weight_is_per_band (image mask : Image) (col : list Qc) :
  width mask = width image -> height mask = height image ->
  bands mask = bands image -> length col = bands image ->
  (0 < bands image)%nat ->
  (forall x y k, pixel (mask_weight mask) x y k = pixel mask x y k / q255)
  /\ bands (mask_weight mask) = bands mask
  /\ exists out,
       blend image (mask_weight mask) col = Ok out
       /\ forall x y k,
            (x < width image)%nat -> (y < height image)%nat ->
            (k < bands image)%nat ->
            pixel out x y k
            = pixel image x y k * (1 - pixel mask x y k / q255)
              + pixel image x y k * (pixel mask x y k / q255) * nth k col 0.
Proof.
  intros Hwd Hht Hb Hc Hpos.
  split; [intros; apply mask_weight_pixel|]. split; [reflexivity|].
  destruct (blend_defined image (mask_weight mask) col Hb Hc Hpos)
    as (out & Hout & Hw & Hh & _ & Hpx).
  exists out. split; [exact Hout|].
  intros x y k Hx Hy Hk.
  cbn [mask_weight div_const linear1 width height] in Hw, Hh.
  rewrite Hpx by lia.
  rewrite blend_value_inside.
  - now rewrite mask_weight_pixel.
  - apply inside_true; lia.
  - apply inside_true; cbn [mask_weight div_const linear1 width height]; lia.
Qed.

Lemma mask_weight_is_per_band_witness :
  exists out,
    blend Demo.base1 (mask_weight Demo.mask_red) [0; 0; 0; 1] = Ok out
    /\ pixel out 0 0 0 = 0
    /\ pixel out 0 0 1 = qz 100.
Proof.
  destruct (mask_weight_is_per_band Demo.base1 Demo.mask_red [0; 0; 0; 1]
              eq_refl eq_refl eq_refl eq_refl (Nat.lt_0_succ 3))
    as (_ & _ & out & Hout & Hpx).
  exists out. split; [exact Hout|]. split.
  - rewrite (Hpx 0%nat 0%nat 0%nat) by (cbn; lia).
    apply Qc_is_canon. reflexivity.
  - rewrite (Hpx 0%nat 0%nat 1%nat) by (cbn; lia).
    apply Qc_is_canon. reflexivity.
Defined.

(** ** Colours *)

Lemma map_result_numbers (cs : list Qc) :
  map_result py_div_255 (map JNum cs) = Ok (map (fun c => c / q255) cs).
Proof.
  induction cs as [|c cs IH]; [reflexivity|].
  cbn [map map_result py_div_255 rbind]. now rewrite IH.
Qed.

(** The two branches of line 99 on a list of numbers. *)
Lemma normalize_col_numbers (cs : list Qc) :
  normalize_col (JList (map JNum cs))
  = Ok (map (fun c => c / q255)
          (if (length cs =? 3)%nat then cs ++ [q255] else cs)).
Proof.
  unfold normalize_col, extend_col, py_len.
  rewrite length_map. cbn [rbind].
  destruct (length cs =? 3)%nat; cbn [py_append_255 rbind py_iter].
  - replace (map JNum cs ++ [JNum q255]) with (map JNum (cs ++ [q255]))
      by now rewrite map_app.
    apply map_result_numbers.
  - apply map_result_numbers.
Qed.

(** C9.  A colour of three numbers gets 255 appended as fourth component,
    and every component of a three- or four-component colour is divided by
    255, which takes [0, 255] to [0, 1]. *)
Theorem colour_is_extended_and_normalised (r g b a : Qc) :
  extend_col (JList [JNum r; JNum g; JNum b])
  = Ok (JList [JNum r; JNum g; JNum b; JNum q255])
  /\ normalize_col (JList [JNum r; JNum g; JNum b])
     = Ok [r / q255; g / q255; b / q255; 1]
  /\ extend_col (JList [JNum r; JNum g; JNum b; JNum a])
     = Ok (JList [JNum r; JNum g; JNum b; JNum a])
  /\ normalize_col (JList [JNum r; JNum g; JNum b; JNum a])
     = Ok [r / q255; g / q255; b / q255; a / q255]
  /\ forall c, 0 <= c <= q255 -> 0 <= c / q255 <= 1.
Proof.
  split; [reflexivity|]. split.
  - rewrite <- q255_unit. reflexivity.
  - split; [reflexivity|]. split; [reflexivity|]. exact unit_interval.
Qed.

Lemma colour_is_extended_and_normalised_witness :
  normalize_col (Demo.nums [255; 0; 0]%Z) = Ok [1; 0 / q255; 0 / q255; 1]
  /\ 0 <= qz 200 / q255 <= 1.
Proof.
  destruct (colour_is_extended_and_normalised (qz 255) (qz 0) (qz 0) (qz 255))
    as (_ & H3 & _ & _ & Hrange).
  split.
  - change (Demo.nums [255; 0; 0]%Z)
      with (JList [JNum (qz 255); JNum (qz 0); JNum (qz 0)]).
    rewrite H3. f_equal. f_equal. exact q255_unit.
  - apply Hrange. split; discriminate.
Defined.

(** C10.  The colour's fourth component is a factor like the other three:
    where the mask's alpha band is 255, the alpha of the result is the
    alpha of the base times [a / 255], which is less than the alpha of the
    base when [a < 255] and the base is not fully transparent there. *)
Theorem colour_alpha_scales_alpha (image mask : Image) (r g b a : Qc) :
  width mask = width image -> height mask = height image ->
  bands image = 4%nat -> bands mask = 4%nat ->
  exists col out,
    normalize_col (JList [JNum r; JNum g; JNum b; JNum a]) = Ok col
    /\ blend image (mask_weight mask) col = Ok out
    /\ forall x y,
         (x < width image)%nat -> (y < height image)%nat ->
         pixel mask x y 3 = q255 ->
         pixel out x y 3 = pixel image x y 3 * (a / q255)
         /\ (a < q255 -> 0 < pixel image x y 3 ->
             pixel out x y 3 < pixel image x y 3).
Proof.
  intros Hwd Hht Hbi Hbm.
  exists [r / q255; g / q255; b / q255; a / q255].
  destruct (blend_defined image (mask_weight mask)
              [r / q255; g / q255; b / q255; a / q255])
    as (out & Hout & Hw & Hh & _ & Hpx).
  { cbn. congruence. }
  { cbn. congruence. }
  { lia. }
  exists out. split; [reflexivity|]. split; [exact Hout|].
  intros x y Hx Hy Hm.
  cbn [mask_weight div_const linear1 width height] in Hw, Hh.
  assert (E : pixel out x y 3 = pixel image x y 3 * (a / q255)).
  { rewrite Hpx by lia.
    rewrite blend_value_inside.
    - rewrite mask_weight_pixel, Hm, q255_unit. cbn [nth]. ring.
    - apply inside_true; lia.
    - apply inside_true; cbn [mask_weight div_const linear1 width height]; lia. }
  split; [exact E|].
  intros Ha Hpos. rewrite E.
  rewrite <- (Qcmult_1_r (pixel image x y 3)) at 2.
  apply Qcmult_lt_mono_pos_l; [exact Hpos | apply below_unit, Ha].
Qed.

Lemma colour_alpha_scales_alpha_witness :
  exists out,
    blend Demo.base1 (mask_weight Demo.mask_full)
      [qz 255 / q255; qz 255 / q255; qz 255 / q255; qz 51 / q255] = Ok out
    /\ pixel out 0 0 3 = qz 51
    /\ pixel out 0 0 3 < pixel Demo.base1 0 0 3.
Proof.
  destruct (colour_alpha_scales_alpha Demo.base1 Demo.mask_full
              (qz 255) (qz 255) (qz 255) (qz 51)
              eq_refl eq_refl eq_refl eq_refl)
    as (col & out & Hcol & Hout & Hpx).
  injection Hcol as <-.
  exists out. split; [exact Hout|].
  destruct (Hpx 0%nat 0%nat) as (E & Hlt); [cbn; lia | cbn; lia | reflexivity |].
  split.
  - rewrite E. apply Qc_is_canon. reflexivity.
  - apply Hlt; reflexivity.
Defined.

(** ** Base and mask of different sizes *)

(** A job with one layer whose two images load: the entry is the blend
    followed by the save. *)
Lemma colorize_entry_one_layer env directory output_dir id file m cs
  w w1 w2 image mask out :
  load_image env (path_join env directory (file +:+ ".png")) w
  = (w1, Ok image) ->
  load_image env (path_join env directory (m +:+ ".png")) w1
  = (w2, Ok mask) ->
  blend image (mask_weight mask)
    (map (fun c => c / q255)
       (if (length cs =? 3)%nat then cs ++ [q255] else cs)) = Ok out ->
  colorize_entry env directory output_dir (manifest_entry id file [(m, cs)]) w
  = pngsave env out (path_join env output_dir (id +:+ ".png")) w2.
Proof.
  intros Hbase Hmask Hblend.
  unfold colorize_entry, manifest_entry, bind, lift.
  cbn [py_get assoc_get String.eqb Ascii.eqb Bool.eqb py_add_png py_iter map
       fst snd layers].
  rewrite Hbase.
  unfold layer, bind, lift. cbn [py_unpack2 py_iter rbind].
  rewrite normalize_col_numbers. cbn [py_add_png].
  rewrite Hmask, Hblend. reflexivity.
Qed.

(** C3, as stated, fails.  A job with a 64x64 base and a 32x32 mask runs to
    its end: [colorize] returns normally and the output file, a 64x64
    image, is in the file store. *)
Lemma size_mismatch_counterexample :
  (width Demo.base64, height Demo.base64) = (64, 64)%nat
  /\ (width Demo.mask32, height Demo.mask32) = (32, 32)%nat
  /\ snd (pngload Demo.env "sprites/base64.png" Demo.world) = Ok Demo.base64
  /\ snd (pngload Demo.env "sprites/mask32.png" Demo.world) = Ok Demo.mask32
  /\ snd (colorize Demo.env "sprites/test.col" "sprites/autocolor" Demo.world)
     = Ok tt
  /\ files (fst (colorize Demo.env "sprites/test.col" "sprites/autocolor"
                   Demo.world)) !! "sprites/autocolor/out.png"
     = Some "PNG 64x64".
Proof. repeat split; vm_compute; reflexivity. Qed.

(** C3, amended.  The script has no check of sizes and no exception for
    them.  A one-layer job whose four-band base and mask load, of whatever
    sizes, does not fail: the result has the larger width and the larger
    height, holds the blend where both images have a pixel and zero
    elsewhere, and is written to the job's output file. *)
Theorem size_mismatch_is_not_an_error env directory output_dir id file m
  (r g b a : Qc) w w1 w2 image mask :
  load_image env (path_join env directory (file +:+ ".png")) w
  = (w1, Ok image) ->
  load_image env (path_join env directory (m +:+ ".png")) w1
  = (w2, Ok mask) ->
  bands image = 4%nat -> bands mask = 4%nat ->
  exists out,
    blend image (mask_weight mask) [r / q255; g / q255; b / q255; a / q255]
    = Ok out
    /\ colorize_entry env directory output_dir
         (manifest_entry id file [(m, [r; g; b; a])]) w
       = ({| files := <[path_join env output_dir (id +:+ ".png")
                        := png_encode env out]> (files w2);
             dirs := dirs w2; stdout := stdout w2 |}, Ok tt)
    /\ width out = Nat.max (width image) (width mask)
    /\ height out = Nat.max (height image) (height mask)
    /\ forall x y k,
         (x < width out)%nat -> (y < height out)%nat -> (k < 4)%nat ->
         pixel out x y k
         = if inside image x y && inside mask x y
           then pixel image x y k * (1 - pixel mask x y k / q255)
                + pixel image x y k * (pixel mask x y k / q255)
                  * nth k [r / q255; g / q255; b / q255; a / q255] 0
           else 0.
Proof.
  intros Hbase Hmask Hbi Hbm.
  destruct (blend_defined image (mask_weight mask)
              [r / q255; g / q255; b / q255; a / q255])
    as (out & Hout & Hw & Hh & _ & Hpx).
  { cbn. congruence. }
  { cbn. congruence. }
  { lia. }
  exists out. split; [exact Hout|]. split.
  - now rewrite (colorize_entry_one_layer env directory output_dir id file m
                   [r; g; b; a] w w1 w2 image mask out Hbase Hmask Hout).
  - cbn [mask_weight div_const linear1 width height] in Hw, Hh.
    split; [exact Hw|]. split; [exact Hh|].
    intros x y k Hx Hy Hk. rewrite Hpx by lia.
    unfold blend_value.
    replace (inside (mask_weight mask) x y) with (inside mask x y)
      by reflexivity.
    destruct (inside image x y && inside mask x y); [|reflexivity].
    now rewrite mask_weight_pixel.
Qed.

Lemma size_mismatch_is_not_an_error_witness :
  exists out,
    files (fst (colorize_entry Demo.env "sprites" "sprites/autocolor"
                  (manifest_entry "out" "base64"
                     [("mask32", [qz 255; qz 0; qz 0; qz 255])])
                  Demo.world)) !! "sprites/autocolor/out.png"
    = Some (png_encode Demo.env out)
    /\ (width out, height out) = (64, 64)%nat
    /\ pixel out 10 10 1 = 0
    /\ pixel out 40 40 0 = 0.
Proof.
  destruct (size_mismatch_is_not_an_error Demo.env "sprites"
              "sprites/autocolor" "out" "base64" "mask32"
              (qz 255) (qz 0) (qz 0) (qz 255)
              Demo.world Demo.world Demo.world Demo.base64 Demo.mask32
              eq_refl eq_refl eq_refl eq_refl)
    as (out & _ & Hrun & Hw & Hh & Hpx).
  exists out. rewrite Hrun. cbn [fst files].
  split; [apply lookup_insert_eq|].
  split; [now rewrite Hw, Hh|].
  split.
  - rewrite Hpx by (rewrite ?Hw, ?Hh; cbn; lia).
    apply Qc_is_canon. reflexivity.
  - rewrite Hpx by (rewrite ?Hw, ?Hh; cbn; lia). reflexivity.
Defined.

(** ** read_json *)

Lemma read_json_parsed env path text v w :
  files w !! path = Some text -> json_load env text = Ok v ->
  read_json env path w = (w, Ok (as_entries v)).
Proof.
  intros Hf Hj. unfold read_json, bind, open_read. now rewrite Hf, Hj.
Qed.

(** C4.  A manifest whose top-level value is not an array is read as the
    one-element sequence of that value, and so is read, and processed by
    [colorize], exactly as the manifest holding the array of that one value;
    a top-level array is read as its elements. *)
Theorem read_json_wraps_single_value env path text v w :
  files w !! path = Some text -> json_load env text = Ok v ->
  read_json env path w = (w, Ok (as_entries v))
  /\ (forall l, v = JList l -> as_entries v = l)
  /\ ((forall l, v <> JList l) ->
      as_entries v = [v]
      /\ forall path' text',
           files w !! path' = Some text' ->
           json_load env text' = Ok (JList [v]) ->
           read_json env path' w = read_json env path w
           /\ forall output_dir,
                path_parent env path' = path_parent env path ->
                colorize env path' output_dir w
                = colorize env path output_dir w).
Proof.
  intros Hf Hj.
  split; [now apply read_json_parsed with text|].
  split; [now intros l ->|].
  intros Hnot.
  assert (Hone : as_entries v = [v]).
  { destruct v; try reflexivity. now destruct (Hnot l). }
  split; [exact Hone|].
  intros path' text' Hf' Hj'.
  assert (Hsame : read_json env path' w = read_json env path w).
  { rewrite (read_json_parsed env path' text' (JList [v]) w Hf' Hj').
    rewrite (read_json_parsed env path text v w Hf Hj).
    now rewrite Hone. }
  split; [exact Hsame|].
  intros output_dir Hdir. unfold colorize, bind.
  now rewrite Hsame, Hdir.
Qed.

Lemma read_json_wraps_single_value_witness :
  read_json Demo.env "sprites/test.col" Demo.world
  = (Demo.world, Ok [Demo.job_mismatch])
  /\ read_json Demo.env "sprites/list.col" Demo.world
     = read_json Demo.env "sprites/test.col" Demo.world
  /\ colorize Demo.env "sprites/list.col" "sprites/autocolor" Demo.world
     = colorize Demo.env "sprites/test.col" "sprites/autocolor" Demo.world.
Proof.
  destruct (read_json_wraps_single_value Demo.env "sprites/test.col" "single"
              Demo.job_mismatch Demo.world eq_refl eq_refl)
    as (Hread & _ & Hwrap).
  split; [exact Hread|].
  destruct Hwrap as (_ & Hother); [intros l; discriminate|].
  destruct (Hother "sprites/list.col" "array" eq_refl eq_refl)
    as (Hsame & Hrun).
  split; [exact Hsame|]. apply Hrun. reflexivity.
Defined.

(** ** load_image *)

Lemma load_image_undecoded env path w e :
  pngload env path w = (w, Raise e) ->
  load_image env path w
  = (w, Raise match e with
              | VipsError message _ =>
                  ColorizingException
                    ("Cannot load " +:+ path +:+ ": " +:+ message)
              | UnicodeDecodeError => ColorizingException (unicode_msg path)
              | _ => e
              end).
Proof.
  intros H. unfold load_image, bind, load_decoded. rewrite H.
  now destruct e.
Qed.

(** C5.  Loading a path that names no file fails with the script's
    ColorizingException, and so does loading a file the decoder rejects as
    not a PNG or rejects with UnicodeDecodeError; in each case the message
    is ["Cannot load "] followed by the path, and nothing else changes. *)
Theorem load_failure_names_the_path env path w :
  (files w !! path = None ->
   load_image env path w
   = (w, Raise (ColorizingException
                  ("Cannot load " +:+ path +:+ ": "
                   +:+ fst (png_open_error_text env path)))))
  /\ (forall content message detail,
        files w !! path = Some content ->
        png_decode env content = Raise (VipsError message detail) ->
        load_image env path w
        = (w, Raise (ColorizingException
                       ("Cannot load " +:+ path +:+ ": " +:+ message))))
  /\ (forall content,
        files w !! path = Some content ->
        png_decode env content = Raise UnicodeDecodeError ->
        load_image env path w
        = (w, Raise (ColorizingException
                       ("Cannot load " +:+ path
                        +:+ " with UnicodeDecodeError, "
                        +:+ "please report your setup at "
                        +:+ "https://github.com/libvips/pyvips/issues/80")))).
Proof.
  split; [|split].
  - intros Hf.
    rewrite (load_image_undecoded env path w
               (VipsError (fst (png_open_error_text env path))
                          (snd (png_open_error_text env path)))).
    + reflexivity.
    + unfold pngload. rewrite Hf. now destruct (png_open_error_text env path).
  - intros content message detail Hf Hd.
    rewrite (load_image_undecoded env path w (VipsError message detail)).
    + reflexivity.
    + unfold pngload. now rewrite Hf, Hd.
  - intros content Hf Hd.
    rewrite (load_image_undecoded env path w UnicodeDecodeError).
    + reflexivity.
    + unfold pngload. now rewrite Hf, Hd.
Qed.

Lemma load_failure_names_the_path_witness :
  load_image Demo.env "sprites/absent.png" Demo.world
  = (Demo.world,
     Raise (ColorizingException
              "Cannot load sprites/absent.png: unable to call pngload"))
  /\ load_image Demo.env "sprites/text.png" Demo.world
     = (Demo.world,
        Raise (ColorizingException
                 "Cannot load sprites/text.png: unable to call pngload"))
  /\ snd (load_image Demo.env "sprites/odd.png" Demo.world)
     = Raise (ColorizingException (unicode_msg "sprites/odd.png")).
Proof.
  destruct (load_failure_names_the_path Demo.env "sprites/absent.png"
              Demo.world) as (Habsent & _ & _).
  destruct (load_failure_names_the_path Demo.env "sprites/text.png"
              Demo.world) as (_ & Htext & _).
  destruct (load_failure_names_the_path Demo.env "sprites/odd.png"
              Demo.world) as (_ & _ & Hodd).
  split; [exact (Habsent eq_refl)|].
  split; [exact (Htext "hello" _ _ eq_refl eq_refl)|].
  now rewrite (Hodd "mojibake" eq_refl eq_refl).
Defined.

Lemma load_image_decoded env path w decoded image :
  pngload env path w = (w, Ok decoded) ->
  to_srgb env decoded = Ok image ->
  load_image env path w = load_finish env path image w.
Proof.
  intros Hp Hs. unfold load_image, bind, load_decoded, lift.
  now rewrite Hp, Hs.
Qed.

(** C6.  When the profile transform raises the library's error, the load
    does not fail: one line is printed, and the image returned is the one
    the transform was applied to, that is the decoded image after the
    colour-space and alpha steps. *)
Theorem profile_failure_is_not_fatal env path w decoded image message detail :
  pngload env path w = (w, Ok decoded) ->
  to_srgb env decoded = Ok image ->
  icc_profile_data (ensure_alpha image) <> None ->
  icc_transform env (ensure_alpha image) "srgb"
  = Raise (VipsError message detail) ->
  load_image env path w
  = ({| files := files w; dirs := dirs w;
        stdout := stdout w
                  ++ ["%s: %s " +:+ path +:+ " "
                      +:+ vips_error_str message detail] |},
     Ok (ensure_alpha image)).
Proof.
  intros Hp Hs Hprof Hicc.
  rewrite (load_image_decoded env path w decoded image Hp Hs).
  unfold load_finish.
  destruct (icc_profile_data (ensure_alpha image)); [|congruence].
  now rewrite Hicc.
Qed.

Lemma profile_failure_is_not_fatal_witness :
  load_image Demo.env "sprites/tagged.png" Demo.world
  = ({| files := files Demo.world; dirs := dirs Demo.world;
        stdout := ["%s: %s sprites/tagged.png "
                            +:+ vips_error_str "unable to call icc_transform"
                                  "no input profile"] |},
     Ok (addalpha Demo.tagged)).
Proof.
  exact (profile_failure_is_not_fatal Demo.env "sprites/tagged.png"
           Demo.world Demo.tagged Demo.tagged
           "unable to call icc_transform" "no input profile"
           eq_refl eq_refl ltac:(discriminate) eq_refl).
Defined.

(** After the colour-space step an image gets, or has, an alpha band. *)
Lemma ensure_alpha_has_alpha im :
  interpretation im = "srgb" -> (3 <= bands im)%nat ->
  hasalpha (ensure_alpha im) = true.
Proof.
  intros Hi Hb. unfold ensure_alpha.
  destruct (hasalpha im) eqn:E; [exact E|].
  unfold hasalpha in *. cbn [addalpha bands interpretation].
  rewrite Hi in *. cbn [String.eqb Ascii.eqb Bool.eqb negb andb] in *.
  destruct (bands im) as [|[|[|[|[|n]]]]]; cbn in *; try reflexivity;
    try discriminate; lia.
Qed.

Lemma added_alpha_is_opaque im x y :
  interpretation im = "srgb" -> hasalpha im = false ->
  bands (ensure_alpha im) = S (bands im)
  /\ pixel (ensure_alpha im) x y (bands im) = q255.
Proof.
  intros Hi Ha. unfold ensure_alpha. rewrite Ha. cbn [addalpha bands pixel].
  rewrite Nat.eqb_refl. unfold max_alpha. rewrite Hi. now split.
Qed.

Lemma to_srgb_tagged env content decoded image :
  LibraryContract env -> png_decode env content = Ok decoded ->
  to_srgb env decoded = Ok image ->
  interpretation image = "srgb" /\ (3 <= bands image)%nat.
Proof.
  intros C Hd. unfold to_srgb.
  destruct (String.eqb_spec (interpretation decoded) "srgb") as [E|N].
  - intros [= <-]. split; [exact E|]. exact (decoded_bands env C _ _ Hd E).
  - intros H. exact (colourspace_tags env C _ _ H).
Qed.

(** C7, as stated, fails.  The file "sprites/tagged.png" decodes to an
    image with an embedded profile that the transform rejects; the image
    returned by the load still carries that profile, has the band values as
    decoded, and is the result of no transform. *)
Lemma profile_conversion_counterexample :
  exists out w',
    load_image Demo.env "sprites/tagged.png" Demo.world = (w', Ok out)
    /\ snd (pngload Demo.env "sprites/tagged.png" Demo.world) = Ok Demo.tagged
    /\ icc_profile_data Demo.tagged = Some "broken"
    /\ icc_profile_data out = Some "broken"
    /\ (forall x y k, (k < 3)%nat -> pixel out x y k = pixel Demo.tagged x y k)
    /\ forall pre, icc_transform Demo.env pre "srgb" <> Ok out.
Proof.
  eexists. eexists. split; [vm_compute; reflexivity|].
  split; [reflexivity|]. split; [reflexivity|]. split; [reflexivity|].
  split.
  - intros x y k Hk. do 3 (destruct k as [|k]; [reflexivity|]). lia.
  - intros pre H. cbn [Demo.env icc_transform] in H.
    case_bool_decide; [discriminate H|].
    apply (f_equal (fun r => match r with
                             | Ok im => icc_profile_data im
                             | Raise _ => None
                             end)) in H.
    discriminate H.
Qed.

Lemma pngload_decoded env path w w' decoded :
  pngload env path w = (w', Ok decoded) ->
  w' = w /\ exists content,
    files w !! path = Some content /\ png_decode env content = Ok decoded.
Proof.
  unfold pngload. destruct (files w !! path) as [content|].
  - intros [= <- H]. split; [reflexivity|]. now exists content.
  - destruct (png_open_error_text env path). discriminate.
Qed.

(** C7, amended.  With the library keeping its contract, every image
    returned by the load has an alpha band and is tagged srgb.  It was
    converted by [colourspace] when decoded with another tag, and given an
    alpha band of 255 when it had none.  With an embedded profile it is the
    result of the profile transform when that succeeds; when the transform
    raises the library's error it is the untransformed image. *)
Theorem loaded_image_has_alpha_and_srgb_tag env path w w' out :
  LibraryContract env ->
  load_image env path w = (w', Ok out) ->
  hasalpha out = true
  /\ interpretation out = "srgb"
  /\ exists decoded image,
       pngload env path w = (w, Ok decoded)
       /\ (interpretation decoded = "srgb" -> image = decoded)
       /\ (interpretation decoded <> "srgb" ->
           colourspace env decoded "srgb" = Ok image)
       /\ (hasalpha image = false ->
           bands (ensure_alpha image) = S (bands image)
           /\ forall x y, pixel (ensure_alpha image) x y (bands image) = q255)
       /\ match icc_profile_data (ensure_alpha image) with
          | None => out = ensure_alpha image
          | Some _ =>
              icc_transform env (ensure_alpha image) "srgb" = Ok out
              \/ (out = ensure_alpha image
                  /\ exists message detail,
                       icc_transform env (ensure_alpha image) "srgb"
                       = Raise (VipsError message detail))
          end.
Proof.
  intros C. unfold load_image, bind, load_decoded, lift.
  destruct (pngload env path w) as [w1 [decoded|e]] eqn:Hp.
  2:{ destruct e; discriminate. }
  destruct (pngload_decoded env path w w1 decoded Hp)
    as (-> & content & _ & Hdec).
  destruct (to_srgb env decoded) as [image|e] eqn:Hs; [|discriminate].
  destruct (to_srgb_tagged env content decoded image C Hdec Hs)
    as [Htag Hband].
  pose proof (ensure_alpha_has_alpha image Htag Hband) as Halpha.
  assert (Hshape : forall o, interpretation o = "srgb" ->
                     bands o = bands (ensure_alpha image) ->
                     hasalpha o = true).
  { intros o Hi Hb. rewrite <- Halpha. unfold hasalpha.
    rewrite Hi, Hb. unfold ensure_alpha.
    destruct (hasalpha image); cbn [addalpha interpretation];
      now rewrite Htag. }
  assert (Hinterp : interpretation (ensure_alpha image) = "srgb").
  { unfold ensure_alpha. now destruct (hasalpha image). }
  assert (Hconv : (interpretation decoded = "srgb" -> image = decoded)
                  /\ (interpretation decoded <> "srgb" ->
                      colourspace env decoded "srgb" = Ok image)).
  { unfold to_srgb in Hs.
    destruct (String.eqb_spec (interpretation decoded) "srgb").
    - injection Hs as <-. split; [reflexivity | contradiction].
    - split; [contradiction | now intros _]. }
  assert (Hopaque : hasalpha image = false ->
            bands (ensure_alpha image) = S (bands image)
            /\ forall x y, pixel (ensure_alpha image) x y (bands image) = q255).
  { intros Hno. split.
    - apply (added_alpha_is_opaque image 0 0 Htag Hno).
    - intros x y. apply (added_alpha_is_opaque image x y Htag Hno). }
  unfold load_finish.
  destruct (icc_profile_data (ensure_alpha image)) as [prof|] eqn:Hprof.
  - destruct (icc_transform env (ensure_alpha image) "srgb")
      as [image2|e] eqn:Hicc.
    + intros [= <- <-].
      destruct (icc_keeps_shape env C _ _ Hicc) as [Hi Hb].
      split; [now apply Hshape|]. split; [exact Hi|].
      exists decoded, image. rewrite Hprof.
      repeat (split; [tauto|]). now left.
    + destruct e; try discriminate.
      unfold bind, print, ret. intros [= <- <-].
      split; [exact Halpha|]. split; [exact Hinterp|].
      exists decoded, image. rewrite Hprof.
      repeat (split; [tauto|]). right. split; [reflexivity|]. eauto.
  - intros [= <- <-].
    split; [exact Halpha|]. split; [exact Hinterp|].
    exists decoded, image. rewrite Hprof.
    repeat (split; [tauto|]). reflexivity.
Qed.

Lemma demo_contract : LibraryContract Demo.env.
Proof.
  split.
  - intros content im. cbn [Demo.env png_decode].
    repeat (match goal with
            | |- context [String.eqb ?a ?b] => destruct (String.eqb a b)
            end; [intros [= <-] _; cbn; lia|]).
    discriminate.
  - intros im out. cbn [Demo.env colourspace].
    destruct (Nat.eqb_spec (bands im) 0); [discriminate|].
    intros [= <-]. split; [reflexivity|].
    cbn [Demo.retag bands].
    destruct (Nat.ltb_spec (bands im) 3); cbn [Demo.grey_to_rgb bands]; lia.
  - intros im out. cbn [Demo.env icc_transform].
    case_bool_decide; [discriminate|]. intros [= <-]. now split.
Qed.

Lemma loaded_image_has_alpha_and_srgb_tag_witness :
  hasalpha (addalpha Demo.tagged) = true
  /\ interpretation (addalpha Demo.tagged) = "srgb".
Proof.
  destruct (loaded_image_has_alpha_and_srgb_tag Demo.env "sprites/tagged.png"
              Demo.world
              {| files := files Demo.world; dirs := dirs Demo.world;
                 stdout := ["%s: %s sprites/tagged.png "
                            +:+ vips_error_str "unable to call icc_transform"
                                  "no input profile"] |}
              (addalpha Demo.tagged) demo_contract eq_refl)
    as (Halpha & Htag & _).
  split; assumption.
Defined.

(** ** No layers *)

(** C8.  The loop over an empty sequence of layers returns the image it was
    given and has no effect; a job with no layers saves the base image as
    loaded. *)
Theorem no_layers_is_identity env directory output_dir id file image w :
  layers env directory image [] w = (w, Ok image)
  /\ colorize_entry env directory output_dir (manifest_entry id file []) w
     = (base <- load_image env (path_join env directory (file +:+ ".png")) ;;
        pngsave env base (path_join env output_dir (id +:+ ".png"))) w.
Proof.
  split; [reflexivity|].
  unfold colorize_entry, manifest_entry, bind, lift.
  cbn [py_get assoc_get String.eqb Ascii.eqb Bool.eqb py_add_png py_iter map
       layers].
  destruct (load_image env (path_join env directory (file +:+ ".png")) w)
    as [w1 [base|e]]; reflexivity.
Qed.

(** * Further properties of the script *)

(** ** Algebra of one layer *)

(** The blend on operands of one shape, in the form the later results use. *)
Lemma blend_same_shape (image w : Image) (col : list Qc) :
  width w = width image -> height w = height image ->
  bands w = bands image -> length col = bands image ->
  (0 < bands image)%nat ->
  exists out,
    blend image w col = Ok out
    /\ width out = width image
    /\ height out = height image
    /\ bands out = bands image
    /\ forall x y k,
         (x < width image)%nat -> (y < height image)%nat ->
         (k < bands image)%nat ->
         pixel out x y k
         = pixel image x y k * (1 - pixel w x y k)
           + pixel image x y k * pixel w x y k * nth k col 0.
Proof.
  intros Hwd Hht Hb Hc Hpos.
  destruct (blend_defined image w col Hb Hc Hpos)
    as (out & Hout & Hw & Hh & Hbo & Hpx).
  exists out. rewrite Hwd, Nat.max_id in Hw. rewrite Hht, Nat.max_id in Hh.
  repeat (split; [assumption|]).
  intros x y k Hx Hy Hk. rewrite Hpx by lia.
  apply blend_value_inside; apply inside_true; lia.
Qed.

Lemma mask_weight_shape mask :
  width (mask_weight mask) = width mask
  /\ height (mask_weight mask) = height mask
  /\ bands (mask_weight mask) = bands mask.
Proof. repeat split. Qed.

Lemma zero_weight (m : Qc) : m = 0 -> m / q255 = 0.
Proof. intros ->. apply Qc_is_canon. reflexivity. Qed.

(** X1.  A mask that is zero in every band leaves every band value of the
    image as it was, whatever the colour. *)
Theorem zero_mask_changes_nothing (image mask : Image) (col : list Qc) :
  width mask = width image -> height mask = height image ->
  bands mask = bands image -> length col = bands image ->
  (0 < bands image)%nat ->
  (forall x y k, (x < width image)%nat -> (y < height image)%nat ->
                 (k < bands image)%nat -> pixel mask x y k = 0) ->
  exists out,
    blend image (mask_weight mask) col = Ok out
    /\ width out = width image /\ height out = height image
    /\ bands out = bands image
    /\ forall x y k, (x < width image)%nat -> (y < height image)%nat ->
         (k < bands image)%nat -> pixel out x y k = pixel image x y k.
Proof.
  intros Hwd Hht Hb Hc Hpos Hzero.
  destruct (blend_same_shape image (mask_weight mask) col Hwd Hht Hb Hc Hpos)
    as (out & Hout & Hw & Hh & Hbo & Hpx).
  exists out. repeat (split; [assumption|]).
  intros x y k Hx Hy Hk.
  rewrite Hpx, mask_weight_pixel, (zero_weight _ (Hzero x y k Hx Hy Hk))
    by assumption.
  ring.
Qed.

Lemma zero_mask_changes_nothing_witness :
  exists out,
    blend Demo.base1 (mask_weight (Demo.solid 1 1 (Demo.px [0; 0; 0; 0]%Z)))
      [1; 0; 0; 1] = Ok out
    /\ pixel out 0 0 1 = qz 100.
Proof.
  destruct (zero_mask_changes_nothing Demo.base1
              (Demo.solid 1 1 (Demo.px [0; 0; 0; 0]%Z)) [1; 0; 0; 1]
              eq_refl eq_refl eq_refl eq_refl (Nat.lt_0_succ 3))
    as (out & Hout & _ & _ & _ & Hpx).
  { intros x y k _ _ Hk.
    do 4 (destruct k as [|k]; [apply Qc_is_canon; reflexivity|]).
    cbn in Hk. lia. }
  exists out. split; [exact Hout|].
  rewrite Hpx by (cbn; lia). reflexivity.
Defined.

(** X2.  White, given as (255, 255, 255) or (255, 255, 255, 255), is the
    neutral colour: under any mask of the image's shape the layer leaves
    every band value of a four-band image as it was. *)
Theorem white_layer_changes_nothing (image mask : Image) (colj : JSON) :
  width mask = width image -> height mask = height image ->
  bands image = 4%nat -> bands mask = 4%nat ->
  colj = JList [JNum q255; JNum q255; JNum q255]
  \/ colj = JList [JNum q255; JNum q255; JNum q255; JNum q255] ->
  exists col out,
    normalize_col colj = Ok col
    /\ blend image (mask_weight mask) col = Ok out
    /\ forall x y k, (x < width image)%nat -> (y < height image)%nat ->
         (k < 4)%nat -> pixel out x y k = pixel image x y k.
Proof.
  intros Hwd Hht Hbi Hbm Hcol.
  assert (Hn : normalize_col colj = Ok [1; 1; 1; 1]).
  { destruct Hcol as [-> | ->]; cbn; now rewrite !q255_unit. }
  destruct (blend_same_shape image (mask_weight mask) [1; 1; 1; 1])
    as (out & Hout & _ & _ & _ & Hpx); try assumption.
  { cbn. congruence. }
  { cbn. congruence. }
  { lia. }
  exists [1; 1; 1; 1], out. split; [exact Hn|]. split; [exact Hout|].
  intros x y k Hx Hy Hk. rewrite Hpx by lia.
  do 4 (destruct k as [|k]; [cbn [nth]; ring|]). lia.
Qed.

Lemma white_layer_changes_nothing_witness :
  exists col out,
    normalize_col (Demo.nums [255; 255; 255]%Z) = Ok col
    /\ blend Demo.base1 (mask_weight Demo.mask_red) col = Ok out
    /\ pixel out 0 0 0 = qz 200.
Proof.
  destruct (white_layer_changes_nothing Demo.base1 Demo.mask_red
              (Demo.nums [255; 255; 255]%Z)
              eq_refl eq_refl eq_refl eq_refl (or_introl eq_refl))
    as (col & out & Hcol & Hout & Hpx).
  exists col, out. split; [exact Hcol|]. split; [exact Hout|].
  rewrite Hpx by (cbn; lia). reflexivity.
Defined.

Lemma Qc_product_nonneg (a b : Qc) : 0 <= a -> 0 <= b -> 0 <= a * b.
Proof.
  intros Ha Hb. rewrite <- (Qcmult_0_l b). now apply Qcmult_le_compat_r.
Qed.

Lemma Qc_complement_nonneg (w : Qc) : w <= 1 -> 0 <= 1 - w.
Proof. intros H. now apply Qcle_minus_iff in H. Qed.

(** The value of the blend lies between zero and the value blended. *)
Lemma tint_in_range (i w c : Qc) :
  0 <= i -> 0 <= w <= 1 -> 0 <= c <= 1 ->
  0 <= i * (1 - w) + i * w * c <= i.
Proof.
  intros Hi [Hw0 Hw1] [Hc0 Hc1].
  assert (Hiw : 0 <= i * w) by now apply Qc_product_nonneg.
  split.
  - rewrite <- (Qcplus_0_l 0). apply Qcplus_le_compat.
    + apply Qc_product_nonneg; [exact Hi | now apply Qc_complement_nonneg].
    + now apply Qc_product_nonneg.
  - replace i with (i * (1 - w) + i * w * 1) at 3 by ring.
    apply Qcplus_le_compat; [apply Qcle_refl|].
    now apply Qcmult_le_mono_nonneg_l.
Qed.

(** X3.  A layer never brightens: where the band value of the image is not
    negative, the mask value is a byte and the colour component is a byte,
    the band value of the result lies between zero and that of the image. *)
Theorem layer_never_brightens (image mask : Image) (r g b a : Qc) :
  width mask = width image -> height mask = height image ->
  bands image = 4%nat -> bands mask = 4%nat ->
  0 <= r <= q255 -> 0 <= g <= q255 -> 0 <= b <= q255 -> 0 <= a <= q255 ->
  exists col out,
    normalize_col (JList [JNum r; JNum g; JNum b; JNum a]) = Ok col
    /\ blend image (mask_weight mask) col = Ok out
    /\ forall x y k, (x < width image)%nat -> (y < height image)%nat ->
         (k < 4)%nat ->
         0 <= pixel image x y k -> 0 <= pixel mask x y k <= q255 ->
         0 <= pixel out x y k <= pixel image x y k.
Proof.
  intros Hwd Hht Hbi Hbm Hr Hg Hb Ha.
  destruct (blend_same_shape image (mask_weight mask)
              [r / q255; g / q255; b / q255; a / q255])
    as (out & Hout & _ & _ & _ & Hpx); try assumption.
  { cbn. congruence. }
  { cbn. congruence. }
  { lia. }
  exists [r / q255; g / q255; b / q255; a / q255], out.
  split; [reflexivity|]. split; [exact Hout|].
  intros x y k Hx Hy Hk Hi Hm. rewrite Hpx, mask_weight_pixel by lia.
  apply tint_in_range; [exact Hi | now apply unit_interval |].
  do 4 (destruct k as [|k]; [cbn [nth]; now apply unit_interval|]). lia.
Qed.

Lemma layer_never_brightens_witness :
  exists out,
    blend Demo.base1 (mask_weight Demo.mask_full)
      [qz 255 / q255; qz 128 / q255; qz 0 / q255; qz 255 / q255] = Ok out
    /\ 0 <= pixel out 0 0 1 <= qz 100.
Proof.
  destruct (layer_never_brightens Demo.base1 Demo.mask_full
              (qz 255) (qz 128) (qz 0) (qz 255)
              eq_refl eq_refl eq_refl eq_refl)
    as (col & out & Hcol & Hout & Hpx); try (split; discriminate).
  injection Hcol as <-.
  exists out. split; [exact Hout|].
  apply (Hpx 0%nat 0%nat 1%nat); try (cbn; lia); try discriminate.
  split; discriminate.
Defined.

(** X4.  Two layers of the image's shape commute: applying them in either
    order gives the same band values (in exact arithmetic), each band value
    being multiplied by the two factors [1 - w + w * c]. *)
Theorem two_layers_commute (image w1 w2 : Image) (c1 c2 : list Qc) :
  width w1 = width image -> height w1 = height image ->
  bands w1 = bands image ->
  width w2 = width image -> height w2 = height image ->
  bands w2 = bands image ->
  length c1 = bands image -> length c2 = bands image ->
  (0 < bands image)%nat ->
  exists first12 out12 first21 out21,
    blend image w1 c1 = Ok first12 /\ blend first12 w2 c2 = Ok out12
    /\ blend image w2 c2 = Ok first21 /\ blend first21 w1 c1 = Ok out21
    /\ forall x y k, (x < width image)%nat -> (y < height image)%nat ->
         (k < bands image)%nat ->
         pixel out12 x y k = pixel out21 x y k
         /\ pixel out12 x y k
            = pixel image x y k
              * (1 - pixel w1 x y k + pixel w1 x y k * nth k c1 0)
              * (1 - pixel w2 x y k + pixel w2 x y k * nth k c2 0).
Proof.
  intros Hw1 Hh1 Hb1 Hw2 Hh2 Hb2 Hc1 Hc2 Hpos.
  destruct (blend_same_shape image w1 c1 Hw1 Hh1 Hb1 Hc1 Hpos)
    as (a & Ha & Haw & Hah & Hab & Hapx).
  destruct (blend_same_shape image w2 c2 Hw2 Hh2 Hb2 Hc2 Hpos)
    as (b & Hb & Hbw & Hbh & Hbb & Hbpx).
  destruct (blend_same_shape a w2 c2) as (ab & Hab2 & _ & _ & _ & Habpx);
    try congruence; try lia.
  destruct (blend_same_shape b w1 c1) as (ba & Hba2 & _ & _ & _ & Hbapx);
    try congruence; try lia.
  exists a, ab, b, ba. repeat (split; [assumption|]).
  intros x y k Hx Hy Hk.
  rewrite Habpx, Hbapx, Hapx, Hbpx by lia.
  split; ring.
Qed.

Lemma two_layers_commute_witness :
  exists out12 out21,
    rbind (blend Demo.base1 (mask_weight Demo.mask_red) [0; 1; 1; 1])
      (fun i => blend i (mask_weight Demo.mask_full) [1; 0; 1; 1]) = Ok out12
    /\ rbind (blend Demo.base1 (mask_weight Demo.mask_full) [1; 0; 1; 1])
         (fun i => blend i (mask_weight Demo.mask_red) [0; 1; 1; 1]) = Ok out21
    /\ pixel out12 0 0 2 = pixel out21 0 0 2.
Proof.
  destruct (two_layers_commute Demo.base1 (mask_weight Demo.mask_red)
              (mask_weight Demo.mask_full) [0; 1; 1; 1] [1; 0; 1; 1]
              eq_refl eq_refl eq_refl eq_refl eq_refl eq_refl eq_refl eq_refl
              (Nat.lt_0_succ 3))
    as (a & ab & b & ba & Ha & Hab & Hb & Hba & Hpx).
  exists ab, ba. rewrite Ha, Hb. cbn [rbind].
  split; [exact Hab|]. split; [exact Hba|].
  apply (Hpx 0%nat 0%nat 2%nat); cbn; lia.
Defined.

(** ** Colours of other lengths *)

(** X5.  A colour of one number is applied to every band: the layer tints
    all bands of the image, alpha included, by that one factor. *)
Theorem one_component_colour_tints_all_bands (image mask : Image) (c : Qc) :
  width mask = width image -> height mask = height image ->
  bands mask = bands image -> (0 < bands image)%nat ->
  exists out,
    normalize_col (JList [JNum c]) = Ok [c / q255]
    /\ blend image (mask_weight mask) [c / q255] = Ok out
    /\ bands out = bands image
    /\ forall x y k, (x < width image)%nat -> (y < height image)%nat ->
         (k < bands image)%nat ->
         pixel out x y k
         = pixel image x y k * (1 - pixel mask x y k / q255)
           + pixel image x y k * (pixel mask x y k / q255) * (c / q255).
Proof.
  intros Hwd Hht Hb Hpos.
  unfold blend, multiply, add, binary.
  rewrite (bandalike_same image (rsub_const 1 (mask_weight mask))) by exact Hb.
  rewrite (bandalike_same image (mask_weight mask)) by exact Hb.
  cbn [rbind]. unfold linear_vec. cbn [bands width height length].
  cbn [Nat.eqb orb rbind].
  rewrite bandalike_same by reflexivity.
  eexists. split; [reflexivity|]. split; [reflexivity|].
  split; [reflexivity|].
  intros x y k Hx Hy Hk.
  unfold sample, mask_weight, div_const, rsub_const, linear1.
  cbn [width height bands pixel nth]. rewrite Hb, Hwd, Hht, !Nat.max_id.
  assert (Hidx : (if (bands image =? 1)%nat then 0%nat else k) = k)
    by now apply band_index.
  rewrite !Hidx.
  destruct (Nat.ltb_spec x (width image)); [|lia].
  destruct (Nat.ltb_spec y (height image)); [|lia].
  cbn [andb]. field. exact q255_nonzero.
Qed.

Lemma one_component_colour_tints_all_bands_witness :
  exists out,
    blend Demo.base1 (mask_weight Demo.mask_full) [qz 51 / q255] = Ok out
    /\ pixel out 0 0 0 = qz 40 /\ pixel out 0 0 3 = qz 51.
Proof.
  destruct (one_component_colour_tints_all_bands Demo.base1 Demo.mask_full
              (qz 51) eq_refl eq_refl eq_refl (Nat.lt_0_succ 3))
    as (out & _ & Hout & _ & Hpx).
  exists out. split; [exact Hout|]. split.
  - rewrite Hpx by (cbn; lia). apply Qc_is_canon. reflexivity.
  - rewrite Hpx by (cbn; lia). apply Qc_is_canon. reflexivity.
Defined.

(** X6.  On four-band images a colour of numbers whose count is not 1, 3 or
    4 passes the normalisation and is then rejected by the multiplication
    by the colour: the layer raises the library's error. *)
Theorem colour_of_wrong_length_is_rejected (image mask : Image)
  (cs : list Qc) :
  bands image = 4%nat -> bands mask = 4%nat ->
  length cs <> 1%nat -> length cs <> 3%nat -> length cs <> 4%nat ->
  normalize_col (JList (map JNum cs)) = Ok (map (fun c => c / q255) cs)
  /\ blend image (mask_weight mask) (map (fun c => c / q255) cs)
     = Raise (VipsError "linear" vector_msg).
Proof.
  intros Hbi Hbm H1 H3 H4. split.
  - rewrite normalize_col_numbers.
    destruct (Nat.eqb_spec (length cs) 3); [contradiction | reflexivity].
  - unfold blend, multiply, binary.
    rewrite (bandalike_same image (rsub_const 1 (mask_weight mask)))
      by (cbn; congruence).
    rewrite (bandalike_same image (mask_weight mask)) by (cbn; congruence).
    cbn [rbind]. unfold linear_vec. cbn [bands]. rewrite length_map, Hbi.
    destruct (Nat.eqb_spec (length cs) 0); [reflexivity|].
    destruct (Nat.eqb_spec (length cs) 1); [contradiction|].
    destruct (Nat.eqb_spec (length cs) 4); [contradiction|].
    reflexivity.
Qed.

Lemma colour_of_wrong_length_is_rejected_witness :
  blend Demo.base1 (mask_weight Demo.mask_full) [qz 255 / q255; qz 0 / q255]
  = Raise (VipsError "linear" vector_msg).
Proof.
  apply (colour_of_wrong_length_is_rejected Demo.base1 Demo.mask_full
           [qz 255; qz 0] eq_refl eq_refl);
    discriminate.
Defined.

(** ** Effects of read_json *)

(** X7.  When the manifest is absent [read_json] raises the error of
    [open] and prints nothing; when the parser rejects its text it prints
    one line, ["error loading %s"] and the path, and raises the parser's
    exception unchanged.  The files are as before in both cases. *)
Theorem read_json_failures env path w :
  (files w !! path = None ->
   read_json env path w
   = (w, Raise (OSError ("No such file or directory: " +:+ path))))
  /\ (forall text e,
        files w !! path = Some text -> json_load env text = Raise e ->
        read_json env path w
        = ({| files := files w; dirs := dirs w;
              stdout := stdout w ++ ["error loading %s " +:+ path] |},
           Raise e)).
Proof.
  split.
  - intros Hf. unfold read_json, bind, open_read. now rewrite Hf.
  - intros text e Hf Hj. unfold read_json, bind, open_read.
    now rewrite Hf, Hj.
Qed.

Lemma read_json_failures_witness :
  read_json Demo.env "sprites/none.col" Demo.world
  = (Demo.world, Raise (OSError "No such file or directory: sprites/none.col"))
  /\ snd (read_json Demo.env "work/test.col" Cases.broken)
     = Raise (ParseError "Expecting value")
  /\ stdout (fst (read_json Demo.env "work/test.col" Cases.broken))
     = ["error loading %s work/test.col"].
Proof.
  destruct (read_json_failures Demo.env "sprites/none.col" Demo.world)
    as (Habsent & _).
  destruct (read_json_failures Demo.env "work/test.col" Cases.broken)
    as (_ & Hbad).
  split; [exact (Habsent eq_refl)|].
  rewrite (Hbad "{" (ParseError "Expecting value") eq_refl eq_refl).
  split; reflexivity.
Defined.

(** ** Effects of load_image *)

Lemma only_prints_refl w : only_prints w w.
Proof.
  repeat split. exists []. now rewrite app_nil_r.
Qed.

Lemma only_prints_trans w1 w2 w3 :
  only_prints w1 w2 -> only_prints w2 w3 -> only_prints w1 w3.
Proof.
  intros (Hf & Hd & l & Hs) (Hf' & Hd' & l' & Hs').
  split; [congruence|]. split; [congruence|].
  exists (l ++ l'). now rewrite Hs', Hs, app_assoc.
Qed.

Lemma pngload_world env path w : fst (pngload env path w) = w.
Proof.
  unfold pngload. destruct (files w !! path); [reflexivity|].
  now destruct (png_open_error_text env path).
Qed.

(** X8.  [load_image] never touches the files or the directories.  It
    prints at most one line, and only when it returns an image: a load that
    raises leaves the world exactly as it was. *)
Theorem load_image_effects env path w w' r :
  load_image env path w = (w', r) ->
  files w' = files w /\ dirs w' = dirs w
  /\ (w' = w
      \/ exists line image,
           r = Ok image /\ stdout w' = stdout w ++ [line])
  /\ (forall e, r = Raise e -> w' = w).
Proof.
  unfold load_image, bind, load_decoded, lift.
  pose proof (pngload_world env path w) as Hw.
  destruct (pngload env path w) as [w1 [decoded|e]]; cbn [fst] in Hw; subst w1.
  2:{ destruct e; intros [= <- <-]; repeat split; auto; congruence. }
  destruct (to_srgb env decoded) as [image|e].
  2:{ intros [= <- <-]; repeat split; auto; congruence. }
  unfold load_finish.
  destruct (icc_profile_data (ensure_alpha image)).
  2:{ intros [= <- <-]; repeat split; auto; congruence. }
  destruct (icc_transform env (ensure_alpha image) "srgb") as [image2|e].
  { intros [= <- <-]; repeat split; auto; congruence. }
  destruct e; try (intros [= <- <-]; repeat split; auto; congruence).
  unfold bind, print, ret. intros [= <- <-]. cbn [files dirs stdout].
  split; [reflexivity|]. split; [reflexivity|]. split; [|discriminate].
  right. eauto.
Qed.

Lemma load_image_effects_witness :
  files (fst (load_image Demo.env "sprites/tagged.png" Demo.world))
  = files Demo.world
  /\ fst (load_image Demo.env "sprites/absent.png" Demo.world) = Demo.world.
Proof.
  split.
  - destruct (load_image_effects Demo.env "sprites/tagged.png" Demo.world
                _ _ eq_refl) as (Hf & _).
    exact Hf.
  - destruct (load_image_effects Demo.env "sprites/absent.png" Demo.world
                _ _ eq_refl) as (_ & _ & _ & Hraise).
    exact (Hraise _ eq_refl).
Defined.

Lemma load_image_only_prints env path w :
  only_prints w (fst (load_image env path w)).
Proof.
  destruct (load_image env path w) as [w' r] eqn:H.
  destruct (load_image_effects env path w w' r H) as (Hf & Hd & Hs & _).
  cbn [fst]. split; [exact Hf|]. split; [exact Hd|].
  destruct Hs as [-> | (line & _ & _ & Hs)].
  - exists []. now rewrite app_nil_r.
  - now exists [line].
Qed.

(** X9.  The colour-space conversion is outside the [try] block: when it
    raises, [load_image] raises that same exception, not the script's own,
    and prints nothing. *)
Theorem colourspace_failure_is_not_caught env path w decoded e :
  pngload env path w = (w, Ok decoded) ->
  interpretation decoded <> "srgb" ->
  colourspace env decoded "srgb" = Raise e ->
  load_image env path w = (w, Raise e).
Proof.
  intros Hp Hi Hc. unfold load_image, bind, load_decoded, lift, to_srgb.
  rewrite Hp.
  destruct (String.eqb_spec (interpretation decoded) "srgb");
    [contradiction|].
  now rewrite Hc.
Qed.

Lemma colourspace_failure_is_not_caught_witness :
  load_image Cases.env_no_route "sprites/grey.png" Cases.grey_world
  = (Cases.grey_world,
     Raise (VipsError "unable to call colourspace" "no known route")).
Proof.
  apply (colourspace_failure_is_not_caught Cases.env_no_route
           "sprites/grey.png" Cases.grey_world
           (Demo.retag "b-w" Demo.base64)).
  - reflexivity.
  - discriminate.
  - reflexivity.
Defined.

(** X10.  An image decoded with the srgb tag and no embedded profile is
    returned without a print.  With four bands it is returned as decoded;
    with three bands it is returned with a fourth band of 255 and its three
    bands as decoded. *)
Theorem plain_srgb_image_loads_as_decoded env path w decoded :
  pngload env path w = (w, Ok decoded) ->
  interpretation decoded = "srgb" ->
  icc_profile_data decoded = None ->
  load_image env path w = (w, Ok (ensure_alpha decoded))
  /\ (bands decoded = 4%nat -> ensure_alpha decoded = decoded)
  /\ (bands decoded = 3%nat ->
      bands (ensure_alpha decoded) = 4%nat
      /\ width (ensure_alpha decoded) = width decoded
      /\ height (ensure_alpha decoded) = height decoded
      /\ forall x y,
           pixel (ensure_alpha decoded) x y 3 = q255
           /\ forall k, (k < 3)%nat ->
                pixel (ensure_alpha decoded) x y k = pixel decoded x y k).
Proof.
  intros Hp Hi Hprof.
  assert (Hkeep : icc_profile_data (ensure_alpha decoded) = None).
  { unfold ensure_alpha. now destruct (hasalpha decoded). }
  split; [|split].
  - unfold load_image, bind, load_decoded, lift, to_srgb.
    rewrite Hp, Hi. cbn [String.eqb Ascii.eqb Bool.eqb].
    unfold load_finish. now rewrite Hkeep.
  - intros Hb. unfold ensure_alpha, hasalpha. rewrite Hb, Hi. reflexivity.
  - intros Hb. unfold ensure_alpha, hasalpha. rewrite Hb, Hi.
    cbn [Nat.eqb Nat.ltb Nat.leb andb orb String.eqb Ascii.eqb Bool.eqb negb].
    cbn [addalpha bands width height pixel]. rewrite Hb.
    repeat (split; [reflexivity|]).
    intros x y. split.
    + cbn [Nat.eqb]. unfold max_alpha. now rewrite Hi.
    + intros k Hk. destruct (Nat.eqb_spec k 3); [lia | reflexivity].
Qed.

Lemma plain_srgb_image_loads_as_decoded_witness :
  load_image Demo.env "sprites/base64.png" Demo.world
  = (Demo.world, Ok Demo.base64)
  /\ bands (ensure_alpha Cases.rgb) = 4%nat
  /\ pixel (ensure_alpha Cases.rgb) 1 1 3 = q255.
Proof.
  destruct (plain_srgb_image_loads_as_decoded Demo.env "sprites/base64.png"
              Demo.world Demo.base64 eq_refl eq_refl eq_refl)
    as (Hload & Hsame & _).
  rewrite (Hsame eq_refl) in Hload. split; [exact Hload|].
  destruct (plain_srgb_image_loads_as_decoded
              {| path_parent := path_parent Demo.env;
                 path_join := path_join Demo.env;
                 json_load := json_load Demo.env;
                 png_decode := fun _ => Ok Cases.rgb;
                 png_open_error_text := png_open_error_text Demo.env;
                 png_encode := png_encode Demo.env;
                 colourspace := colourspace Demo.env;
                 icc_transform := icc_transform Demo.env |}
              "sprites/base64.png" Demo.world Cases.rgb
              eq_refl eq_refl eq_refl)
    as (_ & _ & Hrgb).
  destruct (Hrgb eq_refl) as (Hb & _ & _ & Hpx).
  split; [exact Hb|]. apply Hpx.
Defined.

(** ** Effects of a job *)

Lemma layer_only_prints env directory image item w :
  only_prints w (fst (layer env directory image item w)).
Proof.
  unfold layer, bind, lift.
  destruct (py_unpack2 item) as [[mask col]|e]; [|apply only_prints_refl].
  destruct (normalize_col col) as [c|e]; [|apply only_prints_refl].
  destruct (py_add_png mask) as [name|e]; [|apply only_prints_refl].
  pose proof (load_image_only_prints env (path_join env directory name) w)
    as H.
  destruct (load_image env (path_join env directory name) w) as [w1 [m|e]];
    cbn [fst] in *; [|exact H].
  destruct (blend image (mask_weight m) c); exact H.
Qed.

Lemma layers_only_prints env directory items :
  forall image w, only_prints w (fst (layers env directory image items w)).
Proof.
  induction items as [|item rest IH]; intros image w.
  - apply only_prints_refl.
  - cbn [layers]. unfold bind.
    pose proof (layer_only_prints env directory image item w) as H.
    destruct (layer env directory image item w) as [w1 [image'|e]];
      cbn [fst] in *; [|exact H].
    eapply only_prints_trans; [exact H | apply IH].
Qed.

(** What a job leaves behind: on failure nothing but prints, on success
    prints and the one output file. *)
Lemma colorize_entry_outcome env directory output_dir entry w w' r :
  colorize_entry env directory output_dir entry w = (w', r) ->
  match r with
  | Raise _ => only_prints w w'
  | Ok _ =>
      exists id image w1,
        py_get entry "id" = Ok (JStr id)
        /\ only_prints w w1
        /\ w' = {| files := <[path_join env output_dir (id +:+ ".png")
                             := png_encode env image]> (files w1);
                   dirs := dirs w1; stdout := stdout w1 |}
  end.
Proof.
  unfold colorize_entry, bind, lift.
  destruct (py_get entry "id") as [out_id|e];
    [|intros [= <- <-]; apply only_prints_refl].
  destruct (py_get entry "file") as [source|e];
    [|intros [= <- <-]; apply only_prints_refl].
  destruct (py_get entry "colors") as [colors|e];
    [|intros [= <- <-]; apply only_prints_refl].
  destruct (py_add_png source) as [name|e];
    [|intros [= <- <-]; apply only_prints_refl].
  pose proof (load_image_only_prints env (path_join env directory name) w)
    as Hload.
  destruct (load_image env (path_join env directory name) w)
    as [w1 [image|e]]; cbn [fst] in Hload;
    [|intros [= <- <-]; exact Hload].
  destruct (py_iter colors) as [items|e];
    [|intros [= <- <-]; exact Hload].
  pose proof (layers_only_prints env directory items image w1) as Hlayers.
  destruct (layers env directory image items w1) as [w2 [image'|e]];
    cbn [fst] in Hlayers;
    [|intros [= <- <-]; eapply only_prints_trans; eassumption].
  assert (H12 : only_prints w w2)
    by (eapply only_prints_trans; eassumption).
  destruct out_id; cbn [py_add_png];
    try (intros [= <- <-]; exact H12).
  unfold pngsave. intros [= <- <-].
  exists s, image', w2. split; [reflexivity|]. split; [exact H12|].
  reflexivity.
Qed.





(** ** Ill-shaped and incomplete jobs *)

(** X13.  An entry that is not an object, or whose [file] is absent or not
    a string, fails at once: nothing is loaded, printed or written. *)
Theorem entry_without_file_fails_at_once env directory output_dir entry w :
  (forall kvs, entry <> JDict kvs)
  \/ (forall s, py_get entry "file" <> Ok (JStr s)) ->
  colorize_entry env directory output_dir entry w
  = (w, Raise DynamicTypeError).
Proof.
  intros H. unfold colorize_entry, bind, lift.
  destruct entry as [| b | q | s | l | kvs];
    try reflexivity.
  destruct H as [H | H]; [now destruct (H kvs)|].
  cbn [py_get] in *.
  destruct (assoc_get kvs "file") as [| b | q | s | l | kvs'];
    try reflexivity.
  now destruct (H s).
Qed.

Lemma entry_without_file_fails_at_once_witness :
  colorize_entry Demo.env "sprites" "sprites/autocolor" (JNum (qz 42))
    Demo.world = (Demo.world, Raise DynamicTypeError)
  /\ colorize_entry Demo.env "sprites" "sprites/autocolor"
       (JDict [("id", JStr "out"); ("colors", JList [])]) Demo.world
     = (Demo.world, Raise DynamicTypeError).
Proof.
  split.
  - apply entry_without_file_fails_at_once. left. discriminate.
  - apply entry_without_file_fails_at_once. right. discriminate.
Defined.

(** X14.  The [id] of a job is looked at last: a job whose [id] is absent
    or not a string still has its base and masks loaded and blended, and
    only then fails, having written nothing. *)
Theorem job_without_id_fails_last env directory output_dir kvs file items
  w w1 w2 image image' :
  assoc_get kvs "file" = JStr file ->
  assoc_get kvs "colors" = JList items ->
  (forall s, assoc_get kvs "id" <> JStr s) ->
  load_image env (path_join env directory (file +:+ ".png")) w
  = (w1, Ok image) ->
  layers env directory image items w1 = (w2, Ok image') ->
  colorize_entry env directory output_dir (JDict kvs) w
  = (w2, Raise DynamicTypeError)
  /\ files w2 = files w.
Proof.
  intros Hfile Hcolors Hid Hload Hlayers.
  assert (Hrun : colorize_entry env directory output_dir (JDict kvs) w
                 = (w2, Raise DynamicTypeError)).
  { unfold colorize_entry, bind, lift. cbn [py_get].
    rewrite Hfile, Hcolors. cbn [py_add_png py_iter].
    rewrite Hload, Hlayers.
    destruct (assoc_get kvs "id") as [| b | q | s | l | kvs'];
      try reflexivity.
    now destruct (Hid s). }
  split; [exact Hrun|].
  apply (colorize_entry_outcome _ _ _ _ _ _ _ Hrun).
Qed.

Lemma job_without_id_fails_last_witness :
  colorize_entry Demo.env "sprites" "sprites/autocolor" Cases.no_id
    Demo.world = (Demo.world, Raise DynamicTypeError).
Proof.
  apply (job_without_id_fails_last Demo.env "sprites" "sprites/autocolor"
           [("file", JStr "base64"); ("colors", JList [])] "base64" []
           Demo.world Demo.world Demo.world Demo.base64 Demo.base64);
    try reflexivity.
  intros s. discriminate.
Defined.

(** X15.  A job whose first mask names no file fails with the script's
    exception for that mask's path, after the base has been loaded and
    before anything is written. *)
Theorem missing_mask_fails_the_job env directory output_dir id file m cs rest
  w w1 image :
  load_image env (path_join env directory (file +:+ ".png")) w
  = (w1, Ok image) ->
  files w1 !! path_join env directory (m +:+ ".png") = None ->
  colorize_entry env directory output_dir
    (manifest_entry id file ((m, cs) :: rest)) w
  = (w1, Raise (ColorizingException
                  ("Cannot load " +:+ path_join env directory (m +:+ ".png")
                   +:+ ": "
                   +:+ fst (png_open_error_text env
                              (path_join env directory (m +:+ ".png")))))).
Proof.
  intros Hbase Hmask.
  unfold colorize_entry, manifest_entry, bind, lift.
  cbn [py_get assoc_get String.eqb Ascii.eqb Bool.eqb py_add_png py_iter map
       fst snd layers].
  rewrite Hbase.
  unfold layer, bind, lift. cbn [py_unpack2 py_iter rbind].
  rewrite normalize_col_numbers. cbn [py_add_png].
  rewrite (load_image_undecoded env _ w1
             (VipsError
                (fst (png_open_error_text env
                        (path_join env directory (m +:+ ".png"))))
                (snd (png_open_error_text env
                        (path_join env directory (m +:+ ".png")))))).
  - reflexivity.
  - unfold pngload. rewrite Hmask.
    now destruct (png_open_error_text env
                    (path_join env directory (m +:+ ".png"))).
Qed.

Lemma missing_mask_fails_the_job_witness :
  colorize_entry Demo.env "sprites" "sprites/autocolor" Cases.no_mask
    Demo.world
  = (Demo.world,
     Raise (ColorizingException
              "Cannot load sprites/absent.png: unable to call pngload")).
Proof.
  exact (missing_mask_fails_the_job Demo.env "sprites" "sprites/autocolor"
           "out" "base64" "absent" [qz 255; qz 0; qz 0] []
           Demo.world Demo.world Demo.base64 eq_refl eq_refl).
Defined.

(** ** Sequences of layers and of jobs *)

(** X16.  Layers are applied in order, each to the result of those before
    it: the layers of a concatenated list are those of the first part
    followed, on its result, by those of the second. *)
Theorem layers_compose env directory items1 items2 image w :
  layers env directory image (items1 ++ items2) w
  = bind (layers env directory image items1)
      (fun image' => layers env directory image' items2) w.
Proof.
  revert image w. induction items1 as [|item rest IH]; intros image w.
  - reflexivity.
  - cbn [app layers]. unfold bind at 1 2 3.
    destruct (layer env directory image item w) as [w1 [image'|e]];
      [|reflexivity].
    rewrite IH. reflexivity.
Qed.




(** ** The batch and main *)

(** X18.  The output directory is made only after the manifest has been
    read: with no manifest, or with one the parser rejects, [colorize]
    raises without making the directory or touching a file, and the run
    ends with status 1. *)
Theorem no_manifest_no_directory env resolve dir w :
  let manifest := path_join env (resolve (default "." dir)) "test.col" in
  (files w !! manifest = None ->
   main env resolve dir w
   = (w, Raise (OSError ("No such file or directory: " +:+ manifest))))
  /\ (forall text e,
        files w !! manifest = Some text -> json_load env text = Raise e ->
        main env resolve dir w
        = ({| files := files w; dirs := dirs w;
              stdout := stdout w ++ ["error loading %s " +:+ manifest] |},
           Raise e))
  /\ (forall w' e, main env resolve dir w = (w', Raise e) ->
                   exit_status (snd (main env resolve dir w)) = 1%nat).
Proof.
  intros manifest. split; [|split].
  - intros Hf. unfold main, colorize, bind, read_json, bind, open_read.
    fold manifest. now rewrite Hf.
  - intros text e Hf Hj.
    unfold main, colorize, bind, read_json, bind, open_read.
    fold manifest. now rewrite Hf, Hj.
  - intros w' e H. now rewrite H.
Qed.

Lemma no_manifest_no_directory_witness :
  main Demo.env (fun p => p) (Some "nowhere") Demo.world
  = (Demo.world, Raise (OSError "No such file or directory: nowhere/test.col"))
  /\ dirs (fst (main Demo.env (fun p => p) (Some "work") Cases.broken)) = ∅
  /\ snd (main Demo.env (fun p => p) (Some "work") Cases.broken)
     = Raise (ParseError "Expecting value").
Proof.
  destruct (no_manifest_no_directory Demo.env (fun p => p) (Some "nowhere")
              Demo.world) as (Habsent & _ & _).
  destruct (no_manifest_no_directory Demo.env (fun p => p) (Some "work")
              Cases.broken) as (_ & Hbad & _).
  split; [exact (Habsent eq_refl)|].
  rewrite (Hbad "{" (ParseError "Expecting value") eq_refl eq_refl).
  split; reflexivity.
Defined.

(** X19.  When the output directory's name is taken by a file, [colorize]
    raises the error of [mkdir] after reading the manifest: no job is run
    and nothing is loaded, printed or written. *)
Theorem output_directory_taken_by_a_file env json_path output_dir w
  text v content :
  files w !! json_path = Some text -> json_load env text = Ok v ->
  files w !! output_dir = Some content ->
  colorize env json_path output_dir w
  = (w, Raise (OSError ("File exists: " +:+ output_dir))).
Proof.
  intros Hf Hj Hout. unfold colorize, bind.
  rewrite (read_json_parsed env json_path text v w Hf Hj).
  unfold mkdir_exist_ok. now rewrite Hout.
Qed.

Lemma output_directory_taken_by_a_file_witness :
  colorize Demo.env "sprites/test.col" "sprites/autocolor" Cases.blocked
  = (Cases.blocked, Raise (OSError "File exists: sprites/autocolor")).
Proof.
  exact (output_directory_taken_by_a_file Demo.env "sprites/test.col"
           "sprites/autocolor" Cases.blocked "single" Demo.job_mismatch "x"
           eq_refl eq_refl eq_refl).
Defined.







(** ** Colours that are not numbers *)

Lemma map_result_not_number (l : list JSON) :
  forallb is_number l = false ->
  map_result py_div_255 l = Raise DynamicTypeError.
Proof.
  induction l as [|v rest IH]; [discriminate|].
  cbn [forallb map_result]. intros H.
  destruct v; cbn [is_number py_div_255 rbind andb] in *;
    try reflexivity; rewrite (IH H); reflexivity.
Qed.

(** X22.  A colour list holding a component that is neither a number nor a
    boolean makes the layer raise before the mask is opened: nothing is
    loaded or printed, whether or not the mask file exists. *)
Theorem colour_component_not_a_number env directory image mask l w :
  forallb is_number l = false ->
  normalize_col (JList l) = Raise DynamicTypeError
  /\ layer env directory image (JList [mask; JList l]) w
     = (w, Raise DynamicTypeError).
Proof.
  intros H.
  assert (Hn : normalize_col (JList l) = Raise DynamicTypeError).
  { unfold normalize_col, extend_col. cbn [py_len rbind].
    destruct (length l =? 3)%nat; cbn [py_append_255 rbind py_iter].
    - apply map_result_not_number.
      rewrite forallb_app, H. reflexivity.
    - now apply map_result_not_number. }
  split; [exact Hn|].
  unfold layer, bind, lift. cbn [py_unpack2 py_iter rbind].
  now rewrite Hn.
Qed.

Lemma colour_component_not_a_number_witness :
  layer Demo.env "sprites" Demo.base64
    (JList [JStr "absent"; JList [JNum (qz 255); JStr "0"; JNull]])
    Demo.world
  = (Demo.world, Raise DynamicTypeError).
Proof.
  apply (colour_component_not_a_number Demo.env "sprites" Demo.base64
           (JStr "absent") [JNum (qz 255); JStr "0"; JNull] Demo.world).
  reflexivity.
Defined.
